(** * Starboard pipeline of LCC-bot ([src/cogs/starboard.py])

    A shallow embedding of [StarBoardCog]: the reaction listener
    [on_star_add], the renderer [generate_starboard_embed] and the detached
    image archiver [archive_image], together with the properties of the
    starboard specification that concern them.

    Conventions.
    - Discord snowflakes, counts and sizes are [Z] (Python [int]).
    - Python [str] is a Rocq [string] holding the UTF-8 encoding; [py_len]
      counts code points, which is what Python's [len] returns.
    - Python [float] values that the listener computes ([n * 0.1]) are
      modelled exactly as binary64 dyadics, see [Module Float64].
    - A coroutine is a computation in the monad [M]: it threads the table of
      [StarBoardMessage] rows and the log of effects performed on Discord,
      and either returns a value or raises an exception. *)

From Stdlib Require Import ZArith List String Ascii Bool Lia.
From Stdlib Require Import SpecFloat.
Import ListNotations.

Local Open Scope string_scope.
Local Open Scope list_scope.
Local Open Scope Z_scope.

(** String concatenation, Python's [+] on [str]. *)
Infix "+++" := String.append (right associativity, at level 60).

(** ** Python strings *)

Module PyStr.

(** A byte continues a UTF-8 sequence when it has the form [10xxxxxx]. *)
Definition is_continuation (c : ascii) : bool :=
  let n := nat_of_ascii c in (128 <=? n)%nat && (n <? 192)%nat.

(** [len(s)]: the number of code points. *)
Fixpoint py_len (s : string) : Z :=
  match s with
  | EmptyString => 0
  | String c s' => (if is_continuation c then 0 else 1) + py_len s'
  end.

(** [s * n] for a string [s] and an integer [n]; empty when [n <= 0]. *)
Definition repeat_str (s : string) (n : Z) : string :=
  List.fold_right append "" (List.repeat s (Z.to_nat n)).

(** [s.startswith(p)]. *)
Fixpoint startswith (p s : string) : bool :=
  match p, s with
  | EmptyString, _ => true
  | String a p', String b s' => Ascii.eqb a b && startswith p' s'
  | String _ _, EmptyString => false
  end.

(** [needle in hay]. *)
Fixpoint contains (needle hay : string) : bool :=
  startswith needle hay ||
  match hay with
  | EmptyString => false
  | String _ hay' => contains needle hay'
  end.

(** [s.replace(old, new)] for a non-empty [old], scanning left to right. *)
Fixpoint replace_fuel (fuel : nat) (old new s : string) : string :=
  match fuel with
  | O => s
  | S fuel' =>
      match s with
      | EmptyString => EmptyString
      | String c s' =>
          if startswith old s
          then new +++ replace_fuel fuel' old new
                        (substring (String.length old)
                                   (String.length s - String.length old) s)
          else String c (replace_fuel fuel' old new s')
      end
  end.

Definition replace (old new s : string) : string :=
  replace_fuel (S (String.length s)) old new s.

(** Truthiness of a string. *)
Definition truthy (s : string) : bool :=
  match s with EmptyString => false | _ => true end.

Definition digit (d : Z) : string :=
  String (ascii_of_nat (48 + Z.to_nat d)) EmptyString.

Fixpoint digits_fuel (fuel : nat) (n : Z) (acc : list Z) : list Z :=
  match fuel with
  | O => acc
  | S fuel' =>
      if n <? 10 then n :: acc
      else digits_fuel fuel' (n / 10) (n mod 10 :: acc)
  end.

(** Decimal digits of a non-negative integer, most significant first. *)
Definition digits (n : Z) : list Z :=
  digits_fuel (S (Z.to_nat (Z.log2 n))) n [].

(** [str(n)] for an integer. *)
Definition str_int (n : Z) : string :=
  if n <? 0
  then "-" +++ List.fold_right (fun d s => digit d +++ s) "" (digits (- n))
  else List.fold_right (fun d s => digit d +++ s) "" (digits n).

(** Digits written with a comma before every group of three that is
    followed by [k] further digits, [k] a positive multiple of three. *)
Fixpoint group3 (ds : list Z) : string :=
  match ds with
  | [] => ""
  | d :: ds' =>
      digit d +++
      (if negb (Nat.eqb (List.length ds') 0)
          && Nat.eqb (Nat.modulo (List.length ds') 3) 0
       then "," else "") +++ group3 ds'
  end.

(** ["{:,}".format(n)]. *)
Definition format_comma (n : Z) : string :=
  if n <? 0 then "-" +++ group3 (digits (- n)) else group3 (digits n).

End PyStr.

(** ** Python floats

    The listener multiplies an integer population by the literal [0.1] and
    compares an integer tally with the product.  Both steps are modelled
    exactly: a finite binary64 value is a dyadic [mant * 2 ^ expo], products
    are rounded to 53 significant bits, nearest with ties to even, and the
    comparison of an [int] with a [float] is the comparison of their exact
    values, as in Python.  Overflow and subnormals are out of reach of the
    values computed here and are not modelled. *)

Module Float64.

Record t := mk { mant : Z; expo : Z }.

(** The binary64 value nearest to [m * 2 ^ e]. *)
Definition round53 (m e : Z) : t :=
  let a := Z.abs m in
  let s := Z.log2 a - 52 in
  if s <=? 0 then mk m e
  else
    let q := a / 2 ^ s in
    let r := a mod 2 ^ s in
    let half := 2 ^ (s - 1) in
    let q' := if (half <? r) || ((half =? r) && Z.odd q) then q + 1 else q in
    mk (Z.sgn m * q') (e + s).

(** [float(n)] for an integer [n]. *)
Definition of_int (n : Z) : t := round53 n 0.

(** The literal [0.1], that is [0x1.999999999999ap-4]. *)
Definition tenth : t := mk 3602879701896397 (-55).

(** [x * y]. *)
Definition mul (x y : t) : t :=
  round53 (mant x * mant y) (expo x + expo y).

(** [n >= x] for an integer [n] and a float [x]. *)
Definition int_ge (n : Z) (x : t) : bool :=
  if 0 <=? expo x
  then mant x * 2 ^ expo x <=? n
  else mant x <=? n * 2 ^ (- expo x).

(** The same value in the Standard Library's IEEE 754 model. *)
Definition to_spec (x : t) : spec_float :=
  binary_normalize 53 1024 (mant x) (expo x) false.

End Float64.

(** ** Exceptions *)

Inductive Exn : Type :=
| NotFound            (* discord.NotFound *)
| Forbidden           (* discord.Forbidden *)
| HTTPException       (* discord.HTTPException, any other status *)
| HTTPError           (* httpx.HTTPError *)
| NoMatch             (* orm.NoMatch *)
| MultipleMatches     (* orm.MultipleMatches *)
| AttributeError
| TypeError
| ValueError
| IndexError.

(** [isinstance(e, discord.HTTPException)]: [NotFound] and [Forbidden] are
    subclasses of [HTTPException]. *)
Definition is_HTTPException (e : Exn) : bool :=
  match e with
  | NotFound | Forbidden | HTTPException => true
  | _ => false
  end.

Definition is_NotFound (e : Exn) : bool :=
  match e with NotFound => true | _ => false end.

Definition is_NoMatch (e : Exn) : bool :=
  match e with NoMatch => true | _ => false end.

Definition is_HTTPError (e : Exn) : bool :=
  match e with HTTPError => true | _ => false end.

(** ** Discord objects, as far as the cog reads them *)

Record User := {
  u_id : Z;
  u_bot : bool;
  u_display_name : string;
  u_mention : string;
  u_avatar_url : string          (* display_avatar.url *)
}.

Record Reaction := { r_emoji : string; r_count : Z }.

Record Attachment := {
  at_id : Z;
  at_filename : string;
  at_url : string;
  at_content_type : option string;
  at_spoiler : bool              (* is_spoiler() *)
}.

Record Reference := { ref_channel_id : Z; ref_message_id : Z }.

Record EmbedField := { f_name : string; f_value : string; f_inline : bool }.

Record EmbedAuthor := { ea_name : string; ea_url : string; ea_icon_url : string }.

Record EmbedImage := { img_url : string; img_proxy_url : option string }.

Record Embed := {
  e_type : string;
  e_colour : option Z;
  e_timestamp : option Z;
  e_description : string;
  e_author : option EmbedAuthor;
  e_image : option EmbedImage;   (* None when no image is set *)
  e_fields : list EmbedField
}.

(** [message.channel].  [ch_members] is [None] when the object has no
    attribute [members], [ch_member_count] is [None] when it has no attribute
    [member_count]. *)
Record Channel := {
  ch_id : Z;
  ch_type_name : string;         (* channel.type.name *)
  ch_members : option (list User);
  ch_member_count : option Z;
  ch_mention : string;
  ch_manage_messages : bool      (* permissions_for(guild.me).manage_messages *)
}.

Record Message := {
  msg_id : Z;
  msg_author : User;
  msg_channel : Channel;
  msg_content : string;
  msg_created_at : Z;
  msg_edited_at : option Z;
  msg_jump_url : string;
  msg_reference : option Reference;
  msg_attachments : list Attachment;
  msg_embeds : list Embed;
  msg_reactions : list Reaction
}.

Record TextChannel := { tc_id : Z; tc_name : string; tc_can_send : bool }.

(** [message.guild]; [g_member_count] is [None] when Discord did not report
    a count. *)
Record Guild := {
  g_member_count : option Z;
  g_text_channels : list TextChannel
}.

Inductive EventType := REACTION_ADD | REACTION_REMOVE.

(** [discord.RawReactionActionEvent]; [p_emoji] is [str(payload.emoji)]. *)
Record Payload := {
  p_guild_id : option Z;
  p_channel_id : Z;
  p_message_id : Z;
  p_user_id : Z;
  p_emoji : string;
  p_event_type : EventType
}.

(** What the transport answers while one event is handled. *)
Record Env := {
  intents_members : bool;                       (* bot.intents.members *)
  guild : Guild;
  fetch_message : Z -> Z -> Exn + Message;      (* get_channel(c).fetch_message(m) *)
  send : Z -> list Embed -> Exn + Z;            (* channel.send: id of the new message *)
  edit : Z -> Z -> list Embed -> Exn + unit;    (* msg.edit in a channel *)
  remove_reaction : Z -> string -> Z -> Exn + unit;
  reply : Z -> string -> Exn + unit
}.

(** Modelled from the spec: [utils.db.StarBoardMessage], the row type of the
    Mirror Store, is imported by the cog but is not among the sources.  The
    spec's MirrorRecord has the source message id as its unique key, the
    source channel id, and a nullable mirror message id; the cog names them
    [id], [channel] and [starboard_message]. *)
Record StarBoardMessage := {
  sb_id : Z;
  sb_channel : Z;
  sb_starboard_message : option Z
}.

(** Effects the cog performed on Discord. *)
Inductive Action : Type :=
| RemoveReaction (message : Z) (emoji : string) (user : Z)
| Reply (message : Z) (text : string)
| DeleteMessage (channel message : Z)
| Send (channel : Z) (embeds : list Embed) (new_id : Z)
| Edit (channel message : Z) (embeds : list Embed)
| CreateTaskArchive (message : Z).

(** ** The coroutine monad *)

Record State := {
  table : list StarBoardMessage;   (* rows of StarBoardMessage *)
  effects : list Action            (* oldest first *)
}.

Definition M (A : Type) : Type := State -> (Exn + A) * State.

Definition ret {A} (a : A) : M A := fun st => (inr a, st).

Definition raise {A} (e : Exn) : M A := fun st => (inl e, st).

Definition bind {A B} (c : M A) (k : A -> M B) : M B :=
  fun st =>
    match c st with
    | (inr a, st') => k a st'
    | (inl e, st') => (inl e, st')
    end.

Notation "x <- c ;; k" := (bind c (fun x => k))
  (at level 61, c at next level, right associativity).
Notation "c ;;; k" := (bind c (fun _ => k))
  (at level 61, right associativity).

(** An awaited transport call. *)
Definition await {A} (r : Exn + A) : M A :=
  match r with inr a => ret a | inl e => raise e end.

(** [try: c  except <handles>: h]. *)
Definition try_except {A} (c : M A) (handles : Exn -> bool) (h : M A) : M A :=
  fun st =>
    match c st with
    | (inl e, st') => if handles e then h st' else (inl e, st')
    | r => r
    end.

(** [try: c  finally: f]. *)
Definition try_finally {A} (c : M A) (f : M unit) : M A :=
  fun st =>
    match c st with
    | (r, st') =>
        match f st' with
        | (inr _, st'') => (r, st'')
        | (inl e, st'') => (inl e, st'')
        end
    end.

Definition perform (a : Action) : M unit :=
  fun st => (inr tt, {| table := table st; effects := effects st ++ [a] |}).

(** ** The Mirror Store: [StarBoardMessage.objects] *)

Module Objects.

Definition matching (id : Z) (rows : list StarBoardMessage) :=
  filter (fun r => sb_id r =? id) rows.

(** [objects.get(id=...)]. *)
Definition get (id : Z) : M StarBoardMessage :=
  fun st =>
    match matching id (table st) with
    | [] => (inl NoMatch, st)
    | [r] => (inr r, st)
    | _ :: _ :: _ => (inl MultipleMatches, st)
    end.

Definition create (r : StarBoardMessage) : M StarBoardMessage :=
  fun st => (inr r, {| table := table st ++ [r]; effects := effects st |}).

(** [objects.get_or_create({"channel": channel}, id=id)]. *)
Definition get_or_create (channel id : Z) : M (StarBoardMessage * bool) :=
  try_except
    (r <- get id ;; ret (r, false))
    is_NoMatch
    (r <- create {| sb_id := id; sb_channel := channel;
                    sb_starboard_message := None |} ;;
     ret (r, true)).

(** [entry.delete()]. *)
Definition delete (entry : StarBoardMessage) : M unit :=
  fun st =>
    (inr tt,
     {| table := filter (fun r => negb (sb_id r =? sb_id entry)) (table st);
        effects := effects st |}).

(** [entry.update(starboard_message=m)]. *)
Definition update (entry : StarBoardMessage) (m : Z) : M unit :=
  fun st =>
    (inr tt,
     {| table :=
          map (fun r =>
                 if sb_id r =? sb_id entry
                 then {| sb_id := sb_id r; sb_channel := sb_channel r;
                         sb_starboard_message := Some m |}
                 else r) (table st);
        effects := effects st |}).

End Objects.

(** ** The cog *)

(** ["\N{white medium star}"], U+2B50. *)
Definition star : string :=
  String "226"%char (String "173"%char (String "144"%char "")).

(** ["\N{no entry sign}"], U+1F6AB. *)
Definition no_entry_sign : string :=
  String "240"%char (String "159"%char (String "154"%char (String "171"%char ""))).

(** ["\n"]. *)
Definition nl : string := String "010"%char "".

(** [discord.Colour.gold()]. *)
Definition gold : Z := 15844367.

(** Truthiness of an optional integer such as [payload.guild_id]. *)
Definition truthy_id (o : option Z) : bool :=
  match o with Some n => negb (n =? 0) | None => false end.

(** The star count read off the live message, as both the listener and the
    renderer compute it. *)
Definition star_tally (message : Message) : Z :=
  match filter (fun x => String.eqb (r_emoji x) star) (msg_reactions message) with
  | [] => 0
  | x :: _ => r_count x
  end.

(** [discord.utils.get(message.guild.text_channels, name="starboard")]. *)
Definition starboard_channel (g : Guild) : option TextChannel :=
  find (fun c => String.eqb (tc_name c) "starboard") (g_text_channels g).

(** [n * 0.1]. *)
Definition times_tenth (n : Z) : Float64.t :=
  Float64.mul (Float64.of_int n) Float64.tenth.

(** [embed.add_field(name=..., value=..., inline=...)]. *)
Definition add_field (e : Embed) (name value : string) (inline : bool) : Embed :=
  {| e_type := e_type e; e_colour := e_colour e; e_timestamp := e_timestamp e;
     e_description := e_description e; e_author := e_author e;
     e_image := e_image e;
     e_fields := e_fields e ++ [{| f_name := name; f_value := value;
                                   f_inline := inline |}] |}.

(** [embed.set_image(url=...)]. *)
Definition set_image (e : Embed) (url : string) : Embed :=
  {| e_type := e_type e; e_colour := e_colour e; e_timestamp := e_timestamp e;
     e_description := e_description e; e_author := e_author e;
     e_image := Some {| img_url := url; img_proxy_url := None |};
     e_fields := e_fields e |}.

(** [embed.image is discord.Embed.Empty], line 109.  The property [image]
    wraps what is stored in a new [EmbedProxy] each time it is read, with or
    without an image set, and [is] compares that object with the [Empty]
    sentinel by identity: the test never holds. *)
Definition image_is_Empty (embed : Embed) : bool := false.

(** [attachments.index(file)]; attachments compare by id. *)
Fixpoint index_of (id : Z) (l : list Attachment) : Z :=
  match l with
  | [] => 0
  | a :: l' => if at_id a =? id then 0 else 1 + index_of id l'
  end.

(** [[embed, *filter(lambda x: x.type == "rich", message.embeds)][:10]]. *)
Definition assemble_embeds (embed : Embed) (message : Message) : list Embed :=
  firstn 10 (embed :: filter (fun x => String.eqb (e_type x) "rich")
                             (msg_embeds message)).

(** How the fetch of the existing mirror message ended, lines 182 to 190. *)
Inductive FetchOutcome := Fetched | Missing | Failed.

Definition is_add (t : EventType) : bool :=
  match t with REACTION_ADD => true | REACTION_REMOVE => false end.

(** The text of the reply to an author who stars their own message. *)
Definition self_star_reply (message : Message) : string :=
  "You can't star your own messages you pretentious dick, "
  +++ u_mention (msg_author message) +++ ".".

Section Cog.

(** [discord.utils.format_dt(dt, "R")]. *)
Variable format_dt : Z -> string.

(** [textwrap.shorten(text, width, placeholder="...")]. *)
Variable shorten : string -> Z -> Exn + string.

(** The renderer's own cap, line 59: computed, then unused. *)
Definition renderer_cap (env : Env) (message : Message) : Exn + Float64.t :=
  if PyStr.contains "thread" (ch_type_name (msg_channel message))
  then match ch_member_count (msg_channel message) with
       | Some n => inr (times_tenth n)
       | None => inl AttributeError
       end
  else match g_member_count (guild env) with
       | Some n => inr (times_tenth n)
       | None => inl TypeError
       end.

(** The body of the loop over [message.attachments]. *)
Definition render_attachment (message : Message) (acc : Exn + Embed)
           (file : Attachment) : Exn + Embed :=
  match acc with
  | inl e => inl e
  | inr embed =>
      let name := "Attachment #" +++
                  PyStr.str_int (index_of (at_id file) (msg_attachments message)) in
      if at_spoiler file
      then inr (add_field embed name
                  ("||[" +++ at_filename file +++ "](" +++ at_url file +++ ")||")
                  false)
      else
        match at_content_type file with
        | None => inl AttributeError
        | Some ct =>
            let embed :=
              if PyStr.startswith "image" ct && image_is_Empty embed
              then set_image embed (at_url file) else embed in
            inr (add_field embed name
                   ("[" +++ at_filename file +++ "](" +++ at_url file +++ ")")
                   false)
        end
  end.

(** The "In reply to" field for a fetched reference. *)
Definition render_reply (embed : Embed) (ref : Message) : Exn + Embed :=
  let value := "[Message by " +++ u_display_name (msg_author ref) +++ "]("
               +++ msg_jump_url ref +++ "):" +++ nl +++ ">>> " in
  if negb (PyStr.truthy (msg_content ref))
  then inr (add_field embed "In reply to"
              (PyStr.replace (":" +++ nl +++ ">>> ") "" value) false)
  else match shorten (msg_content ref) (1024 - PyStr.py_len value) with
       | inr short => inr (add_field embed "In reply to" (value +++ short) false)
       | inl e => inl e
       end.

Definition generate_starboard_embed (env : Env) (message : Message) : M Embed :=
  let star_count := star_tally message in
  _ <- await (renderer_cap env message) ;;
  let embed :=
    {| e_type := "rich"; e_colour := Some gold;
       e_timestamp := Some (msg_created_at message);
       e_description := msg_content message;
       e_author := Some {| ea_name := u_display_name (msg_author message);
                           ea_url := msg_jump_url message;
                           ea_icon_url := u_avatar_url (msg_author message) |};
       e_image := None; e_fields := [] |} in
  let stars :=
    if 5 <? star_count
    then star +++ "x" +++ PyStr.format_comma star_count
    else let repeated := PyStr.repeat_str star star_count in
         if PyStr.truthy repeated then repeated else no_entry_sign in
  let info :=
    "Star count: " +++ stars +++ nl +++
    "Channel: " +++ ch_mention (msg_channel message) +++ nl +++
    "Author: " +++ u_mention (msg_author message) +++ nl +++
    "URL: [jump](" +++ msg_jump_url message +++ ")" +++ nl +++
    "Sent: " +++ format_dt (msg_created_at message) in
  let info :=
    match msg_edited_at message with
    | Some edited => info +++ nl +++ "Last edited: " +++ format_dt edited
    | None => info
    end in
  let embed := add_field embed "Info" info false in
  embed <-
    match msg_reference message with
    | None => ret embed
    | Some reference =>
        fetched <-
          try_except
            (ref <- await (fetch_message env (ref_channel_id reference)
                                             (ref_message_id reference)) ;;
             ret (Some ref))
            is_HTTPException
            (ret None) ;;
        match fetched with
        | None => ret embed
        | Some ref => await (render_reply embed ref)
        end
    end ;;
  await (fold_left (render_attachment message) (msg_attachments message)
                   (inr embed)).

(** The cap of the listener, lines 161 to 165. *)
Definition threshold (env : Env) (message : Message) : Exn + Float64.t :=
  let cap := msg_channel message in
  match intents_members env, ch_members cap with
  | true, Some members =>
      inr (times_tenth
             (Z.of_nat (List.length (filter (fun x => negb (u_bot x)) members))))
  | _, _ =>
      match ch_member_count cap with
      | Some n => inr (times_tenth n)
      | None => inl AttributeError
      end
  end.

(** Lines 137 to 153: the tally is 0.  The result is [None] when the
    listener returns here, and otherwise the message the rest of the
    listener goes on with: the name [message] is rebound when the fetch
    from the starboard channel succeeds. *)
Definition demote (env : Env) (payload : Payload) (message : Message)
  : M (option Message) :=
  found <- try_except
             (database <- Objects.get (p_message_id payload) ;;
              ret (Some database))
             is_NoMatch
             (ret None) ;;
  match found with
  | None => ret None
  | Some database =>
      match starboard_channel (guild env) with
      | Some channel =>
          message' <-
            try_finally
              (try_except
                 (fetched <- await (fetch_message env (tc_id channel)
                                                      (sb_id database)) ;;
                  perform (DeleteMessage (tc_id channel) (msg_id fetched)) ;;;
                  ret fetched)
                 is_HTTPException
                 (ret message))
              (Objects.delete database) ;;
          ret (Some message')
      | None =>
          Objects.delete database ;;;
          ret (Some message)
      end
  end.

(** [channel.send(embeds=embeds)], then the update of the row and the
    detached archiver. *)
Definition post (env : Env) (channel : TextChannel) (entry : StarBoardMessage)
           (embeds : list Embed) : M unit :=
  msg <- await (send env (tc_id channel) embeds) ;;
  perform (Send (tc_id channel) embeds msg) ;;;
  Objects.update entry msg ;;;
  perform (CreateTaskArchive msg).

(** Lines 155 to 192. *)
Definition synchronize (env : Env) (payload : Payload) (message : Message)
           (star_count : Z) : M unit :=
  database <- Objects.get_or_create (p_channel_id payload)
                                    (p_message_id payload) ;;
  let '(entry, created) := database in
  if created
  then
    cap <- await (threshold env message) ;;
    if Float64.int_ge star_count cap
    then
      match starboard_channel (guild env) with
      | Some channel =>
          if tc_can_send channel
          then
            embed <- generate_starboard_embed env message ;;
            post env channel entry (assemble_embeds embed message)
          else ret tt
      | None => ret tt
      end
    else Objects.delete entry
  else
    let channel := starboard_channel (guild env) in
    embed <- generate_starboard_embed env message ;;
    let embeds := assemble_embeds embed message in
    match channel, sb_starboard_message entry with
    | Some channel, Some mirror =>
        if tc_can_send channel && negb (mirror =? 0)
        then
          outcome <-
            try_except
              (try_except
                 (await (fetch_message env (tc_id channel) mirror) ;;;
                  ret Fetched)
                 is_NotFound
                 (ret Missing))
              is_HTTPException
              (ret Failed) ;;
          match outcome with
          | Missing =>
              (* except discord.NotFound *)
              post env channel entry embeds
          | Failed =>
              (* except discord.HTTPException: pass *)
              ret tt
          | Fetched =>
              (* else *)
              await (edit env (tc_id channel) mirror embeds) ;;;
              perform (Edit (tc_id channel) mirror embeds) ;;;
              perform (CreateTaskArchive mirror)
          end
        else ret tt
    | _, _ => ret tt
    end.

(** Lines 126 to 130: the author starred their own message. *)
Definition reject_self_star (env : Env) (payload : Payload) (message : Message)
  : M unit :=
  (if ch_manage_messages (msg_channel message)
   then
     await (remove_reaction env (msg_id message) (p_emoji payload)
                            (u_id (msg_author message))) ;;;
     perform (RemoveReaction (msg_id message) (p_emoji payload)
                             (u_id (msg_author message)))
   else ret tt) ;;;
  await (reply env (msg_id message) (self_star_reply message)) ;;;
  perform (Reply (msg_id message) (self_star_reply message)).

(** Lines 131 to 192: the tally, the demotion when it is 0, and the
    synchronizer unless the demotion returned. *)
Definition curate (env : Env) (payload : Payload) (message : Message)
  : M unit :=
  let star_count := star_tally message in
  continue <- (if star_count =? 0
               then demote env payload message
               else ret (Some message)) ;;
  match continue with
  | None => ret tt
  | Some message => synchronize env payload message star_count
  end.

(** The listener of [on_raw_reaction_add] and [on_raw_reaction_remove]. *)
Definition on_star_add (env : Env) (payload : Payload) : M unit :=
  if negb (truthy_id (p_guild_id payload)) then ret tt
  else if negb (String.eqb (p_emoji payload) star) then ret tt
  else
    message <- await (fetch_message env (p_channel_id payload)
                                        (p_message_id payload)) ;;
    if (u_id (msg_author message) =? p_user_id payload)
       && is_add (p_event_type payload)
    then reject_self_star env payload message
    else curate env payload message.

(** One event handled from a given state: an exception ends the handler
    and leaves the state as it is at that point. *)
Definition handle (st : State) (ev : Env * Payload) : State :=
  snd (on_star_add (fst ev) (snd ev) st).

(** The events are handled one after the other, under [self.lock]. *)
Definition run (events : list (Env * Payload)) (st : State) : State :=
  fold_left handle events st.

End Cog.

(** ** The image archiver *)

(** An [httpx] response; [content] holds the payload. *)
Record Response := { status_code : Z; content : list Byte.byte }.

(** The mirror message handed to the archiver, with its guild's
    [filesize_limit]. *)
Record MirrorMessage := {
  mm_embeds : list Embed;
  mm_filesize_limit : Z
}.

(** [starboard_message.edit(embeds=embeds, file=discord.File(file, filename))]. *)
Record ArchiveEdit := {
  ae_embeds : list Embed;
  ae_filename : string;
  ae_file : list Byte.byte
}.

(** Lines 40 to 43: the limit the payload is compared with. *)
Definition effective_limit (fs_limit : Z) : Z :=
  if fs_limit =? 8 * 1024 * 1024 then 25 * 1024 * 1024 else fs_limit.

Section Archiver.

(** [session.get(url)]. *)
Variable http_get : string -> Exn + Response.

(** [urlparse(url).path.split("/")[-1]]. *)
Variable url_filename : string -> string.

(** Lines 44 to 50, once a response is there. *)
Definition attach (m : MirrorMessage) (first : Embed) (rest : list Embed)
           (filename : string) (r : Response) : option ArchiveEdit :=
  if (status_code r =? 200)
     && (Z.of_nat (List.length (content r))
         <? effective_limit (mm_filesize_limit m))
  then Some {| ae_embeds := set_image first ("attachment://" +++ filename)
                            :: rest;
               ae_filename := filename;
               ae_file := content r |}
  else None.

(** [archive_image]: the edit it issues, if any, or the exception that
    ends the detached task. *)
Definition archive_image (m : MirrorMessage) : Exn + option ArchiveEdit :=
  match mm_embeds m with
  | [] => inl IndexError
  | first :: rest =>
      match e_image first with
      | None => inr None
      | Some image =>
          if PyStr.truthy (img_url image)
          then
            let filename := url_filename (img_url image) in
            match http_get (img_url image) with
            | inr r => inr (attach m first rest filename r)
            | inl e =>
                if is_HTTPError e
                then
                  match img_proxy_url image with
                  | Some proxy =>
                      if PyStr.truthy proxy
                      then match http_get proxy with
                           | inr r => inr (attach m first rest filename r)
                           | inl e' => inl e'
                           end
                      else inr None
                  | None => inr None
                  end
                else inl e
            end
          else inr None
      end
  end.

End Archiver.

(** The state of a bot that has handled nothing yet. *)
Definition initial_state : State := {| table := []; effects := [] |}.

(** ** The Starboard Info command *)

Section Command.

Variable format_dt : Z -> string.
Variable shorten : string -> Z -> Exn + string.

(** [get_starboard_info], lines 194 to 197: [respond] is what
    [ctx.respond(embed=...)] answers. *)
Definition get_starboard_info (env : Env) (respond : Embed -> Exn + unit)
           (message : Message) : M unit :=
  embed <- generate_starboard_embed format_dt shorten env message ;;
  await (respond embed).

End Command.

(** ** Notions the properties are stated with *)

(** The Mirror Store holds at most one row for every source message. *)
Definition at_most_one (st : State) : Prop :=
  forall id, (List.length (Objects.matching id (table st)) <= 1)%nat.

(** A coroutine keeps a property of the state, however it ends. *)
Definition preserves (I : State -> Prop) {A} (c : M A) : Prop :=
  forall st, I st -> I (snd (c st)).

(** The effects that post or edit a mirror message. *)
Definition is_mirror_post (a : Action) : bool :=
  match a with
  | Send _ _ _ | Edit _ _ _ => true
  | _ => false
  end.

(** The embeds of a mirror post or edit: the embed generated for a message
    fetched under the id of the event, then the rich embeds of that message
    in their order, nine of them at most. *)
Definition composed (format_dt : Z -> string)
           (shorten : string -> Z -> Exn + string)
           (env : Env) (payload : Payload) (embeds : list Embed) : Prop :=
  exists channel message embed,
    fetch_message env channel (p_message_id payload) = inr message
    /\ fst (generate_starboard_embed format_dt shorten env message initial_state)
       = inr embed
    /\ embeds = embed :: firstn 9 (filter (fun x => String.eqb (e_type x) "rich")
                                          (msg_embeds message)).


(** The response the archiver works with for an image: the answer of the
    image URL, or the answer of the proxy URL after the request to the
    image URL raised an [httpx.HTTPError], lines 29 to 38. *)
Definition received (http_get : string -> Exn + Response) (image : EmbedImage)
           (r : Response) : Prop :=
  PyStr.truthy (img_url image) = true
  /\ (http_get (img_url image) = inr r
      \/ exists e proxy,
           http_get (img_url image) = inl e
           /\ is_HTTPError e = true
           /\ img_proxy_url image = Some proxy
           /\ PyStr.truthy proxy = true
           /\ http_get proxy = inr r).

(** The rows of the messages other than [id]. *)
Definition elsewhere (id : Z) (rows : list StarBoardMessage)
  : list StarBoardMessage :=
  filter (fun r => negb (sb_id r =? id)) rows.

(** The rows of the messages other than the one of the event are [rows]. *)
Definition others_are (payload : Payload) (rows : list StarBoardMessage)
           (st : State) : Prop :=
  elsewhere (p_message_id payload) (table st) = rows.

(** The name of the field an attachment is rendered as. *)
Definition attachment_name (message : Message) (file : Attachment) : string :=
  "Attachment #"
  +++ PyStr.str_int (index_of (at_id file) (msg_attachments message)).

(** How many reply fields the renderer adds: one when the message has a
    reference and the transport yields the referenced message. *)
Definition reply_fields (env : Env) (message : Message) : nat :=
  match msg_reference message with
  | Some reference =>
      match fetch_message env (ref_channel_id reference)
                          (ref_message_id reference) with
      | inr _ => 1%nat
      | inl _ => 0%nat
      end
  | None => 0%nat
  end.

(** The message without its reply reference. *)
Definition without_reference (message : Message) : Message :=
  {| msg_id := msg_id message; msg_author := msg_author message;
     msg_channel := msg_channel message; msg_content := msg_content message;
     msg_created_at := msg_created_at message;
     msg_edited_at := msg_edited_at message;
     msg_jump_url := msg_jump_url message; msg_reference := None;
     msg_attachments := msg_attachments message;
     msg_embeds := msg_embeds message;
     msg_reactions := msg_reactions message |}.

(** The message with other reactions. *)
Definition with_reactions (message : Message) (reactions : list Reaction)
  : Message :=
  {| msg_id := msg_id message; msg_author := msg_author message;
     msg_channel := msg_channel message; msg_content := msg_content message;
     msg_created_at := msg_created_at message;
     msg_edited_at := msg_edited_at message;
     msg_jump_url := msg_jump_url message;
     msg_reference := msg_reference message;
     msg_attachments := msg_attachments message;
     msg_embeds := msg_embeds message;
     msg_reactions := reactions |}.

(** The message in a channel that lists other members. *)
Definition with_members (message : Message) (members : list User) : Message :=
  {| msg_id := msg_id message; msg_author := msg_author message;
     msg_channel :=
       {| ch_id := ch_id (msg_channel message);
          ch_type_name := ch_type_name (msg_channel message);
          ch_members := Some members;
          ch_member_count := ch_member_count (msg_channel message);
          ch_mention := ch_mention (msg_channel message);
          ch_manage_messages := ch_manage_messages (msg_channel message) |};
     msg_content := msg_content message;
     msg_created_at := msg_created_at message;
     msg_edited_at := msg_edited_at message;
     msg_jump_url := msg_jump_url message;
     msg_reference := msg_reference message;
     msg_attachments := msg_attachments message;
     msg_embeds := msg_embeds message;
     msg_reactions := msg_reactions message |}.

(** ** A small guild to run the cog on *)

Module Demo.

(** [format_dt(dt, "R")] of discord.py. *)
Definition format_dt (t : Z) : string := "<t:" +++ PyStr.str_int t +++ ":R>".

(** [textwrap.shorten] on a text that fits the width and has single
    spaces leaves it as it is; the texts used below are of that kind. *)
Definition shorten (text : string) (width : Z) : Exn + string := inr text.

Definition human (id : Z) (name : string) : User :=
  {| u_id := id; u_bot := false; u_display_name := name;
     u_mention := "<@" +++ PyStr.str_int id +++ ">";
     u_avatar_url := "https://cdn.example/avatars/" +++ PyStr.str_int id |}.

Definition alice : User := human 11 "alice".
Definition bob : User := human 12 "bob".

(** [n] members that are not bots. *)
Definition crowd (n : nat) : list User :=
  map (fun i => human (Z.of_nat i) "member") (seq 100 n).

(** A text channel (not a thread) with the given member list. *)
Definition general (members : list User) : Channel :=
  {| ch_id := 5; ch_type_name := "text"; ch_members := Some members;
     ch_member_count := None; ch_mention := "<#5>";
     ch_manage_messages := true |}.

Definition link_embed (n : Z) : Embed :=
  {| e_type := "rich"; e_colour := None; e_timestamp := None;
     e_description := "embed " +++ PyStr.str_int n; e_author := None;
     e_image := None; e_fields := [] |}.

(** Message 1, written by alice in the text channel, carrying [stars]
    star reactions (no star reaction at all when [stars] is 0). *)
Definition source (members : list User) (stars : Z) (embeds : list Embed)
  : Message :=
  {| msg_id := 1; msg_author := alice; msg_channel := general members;
     msg_content := "hello"; msg_created_at := 1700000000;
     msg_edited_at := None;
     msg_jump_url := "https://discord.com/channels/77/5/1";
     msg_reference := None; msg_attachments := [];
     msg_embeds := embeds;
     msg_reactions :=
       {| r_emoji := "thumbs"; r_count := 4 |}
       :: (if stars =? 0 then []
           else [ {| r_emoji := star; r_count := stars |} ]) |}.

(** Message 2, the mirror of message 1 in the starboard channel. *)
Definition mirror : Message :=
  {| msg_id := 2; msg_author := human 99 "LCC-bot";
     msg_channel := {| ch_id := 9; ch_type_name := "text";
                       ch_members := Some []; ch_member_count := None;
                       ch_mention := "<#9>"; ch_manage_messages := true |};
     msg_content := ""; msg_created_at := 1700000100; msg_edited_at := None;
     msg_jump_url := "https://discord.com/channels/77/9/2";
     msg_reference := None; msg_attachments := []; msg_embeds := [];
     msg_reactions := [] |}.

(** Message 3, bob's reply to message 1, edited since. *)
Definition answer (members : list User) : Message :=
  {| msg_id := 3; msg_author := bob; msg_channel := general members;
     msg_content := "hi alice"; msg_created_at := 1700000200;
     msg_edited_at := Some 1700000300;
     msg_jump_url := "https://discord.com/channels/77/5/3";
     msg_reference := Some {| ref_channel_id := 5; ref_message_id := 1 |};
     msg_attachments :=
       [ {| at_id := 31; at_filename := "cat.png";
            at_url := "https://cdn.example/cat.png";
            at_content_type := Some "image/png"; at_spoiler := false |};
         {| at_id := 32; at_filename := "SPOILER_end.txt";
            at_url := "https://cdn.example/SPOILER_end.txt";
            at_content_type := Some "text/plain"; at_spoiler := true |} ];
     msg_embeds := [];
     msg_reactions := [ {| r_emoji := star; r_count := 6 |} ] |}.

Definition the_guild : Guild :=
  {| g_member_count := Some 100;
     g_text_channels :=
       [ {| tc_id := 5; tc_name := "general"; tc_can_send := true |};
         {| tc_id := 9; tc_name := "starboard"; tc_can_send := true |} ] |}.

(** The transport: message 1 is in channel 5; [in_starboard] tells what a
    fetch of message 2 from the starboard channel answers; every send
    yields message 50; [edit_answer] is what an edit answers. *)
Definition env (message : Message) (in_starboard : Exn + Message)
           (edit_answer : Exn + unit) : Env :=
  {| intents_members := true;
     guild := the_guild;
     fetch_message := fun channel id =>
       if (channel =? 5) && (id =? 1) then inr message
       else if (channel =? 9) && (id =? 2) then in_starboard
       else inl NotFound;
     send := fun _ _ => inr 50;
     edit := fun _ _ _ => edit_answer;
     remove_reaction := fun _ _ _ => inr tt;
     reply := fun _ _ => inr tt |}.

(** A star reaction on message 1, added or removed by [user]. *)
Definition star_event (kind : EventType) (user : User) : Payload :=
  {| p_guild_id := Some 77; p_channel_id := 5; p_message_id := 1;
     p_user_id := u_id user; p_emoji := star; p_event_type := kind |}.

(** The Mirror Store once message 1 has been mirrored as message 2. *)
Definition mirrored : State :=
  {| table := [ {| sb_id := 1; sb_channel := 5;
                   sb_starboard_message := Some 2 |} ];
     effects := [] |}.

(** The Mirror Store with a row for message 1 that has no mirror yet. *)
Definition tracked : State :=
  {| table := [ {| sb_id := 1; sb_channel := 5;
                   sb_starboard_message := None |} ];
     effects := [] |}.

(** A transport like [env] for a guild [g] whose sends answer
    [send_answer] and whose reaction removals answer [removal]. *)
Definition world (g : Guild) (message : Message) (in_starboard : Exn + Message)
           (send_answer : Exn + Z) (removal : Exn + unit) : Env :=
  {| intents_members := true;
     guild := g;
     fetch_message := fun channel id =>
       if (channel =? 5) && (id =? 1) then inr message
       else if (channel =? 9) && (id =? 2) then in_starboard
       else inl NotFound;
     send := fun _ _ => send_answer;
     edit := fun _ _ _ => inr tt;
     remove_reaction := fun _ _ _ => removal;
     reply := fun _ _ => inr tt |}.

(** The same guild without a starboard channel. *)
Definition plain_guild : Guild :=
  {| g_member_count := Some 100;
     g_text_channels :=
       [ {| tc_id := 5; tc_name := "general"; tc_can_send := true |} ] |}.

(** A bot account. *)
Definition robot (id : Z) : User :=
  {| u_id := id; u_bot := true; u_display_name := "robot";
     u_mention := "<@" +++ PyStr.str_int id +++ ">";
     u_avatar_url := "https://cdn.example/avatars/" +++ PyStr.str_int id |}.

(** A message as the archiver may receive it: a first embed with a remote
    image and a proxy URL, then one more embed, in a guild of the smallest
    tier. *)
Definition posted : MirrorMessage :=
  {| mm_embeds :=
       [ {| e_type := "rich"; e_colour := Some gold;
            e_timestamp := Some 1700000000; e_description := "hello";
            e_author := None;
            e_image := Some {| img_url := "https://host.example/a/cat.png";
                               img_proxy_url :=
                                 Some "https://proxy.example/cat.png" |};
            e_fields := [] |};
         link_embed 1 ];
     mm_filesize_limit := 8 * 1024 * 1024 |}.

(** A host that is down while the proxy serves three bytes. *)
Definition proxy_only (url : string) : Exn + Response :=
  if String.eqb url "https://proxy.example/cat.png"
  then inr {| status_code := 200;
              content := [Byte.x89; Byte.x50; Byte.x4e] |}
  else inl HTTPError.

(** Message 4, bob's reply to a message that is gone: the transport
    answers [NotFound] for message 7. *)
Definition orphan (members : list User) : Message :=
  {| msg_id := 4; msg_author := bob; msg_channel := general members;
     msg_content := "anyone?"; msg_created_at := 1700000400;
     msg_edited_at := None;
     msg_jump_url := "https://discord.com/channels/77/5/4";
     msg_reference := Some {| ref_channel_id := 5; ref_message_id := 7 |};
     msg_attachments := []; msg_embeds := [];
     msg_reactions := [ {| r_emoji := star; r_count := 2 |} ] |}.

(** Message 6, with an attachment whose content type is unknown. *)
Definition untyped (members : list User) : Message :=
  {| msg_id := 6; msg_author := bob; msg_channel := general members;
     msg_content := ""; msg_created_at := 1700000600; msg_edited_at := None;
     msg_jump_url := "https://discord.com/channels/77/5/6";
     msg_reference := None;
     msg_attachments :=
       [ {| at_id := 61; at_filename := "blob";
            at_url := "https://cdn.example/blob";
            at_content_type := None; at_spoiler := false |} ];
     msg_embeds := [];
     msg_reactions := [] |}.

(** A guild that reports no member count. *)
Definition uncounted_guild : Guild :=
  {| g_member_count := None; g_text_channels := g_text_channels the_guild |}.

(** A reaction on message 1 in a direct message. *)
Definition direct_event : Payload :=
  {| p_guild_id := None; p_channel_id := 5; p_message_id := 1;
     p_user_id := 12; p_emoji := star; p_event_type := REACTION_ADD |}.

(** The last path segment of the two URLs used here. *)
Definition last_segment (url : string) : string := "cat.png".

End Demo.

(** * Properties *)

(** ** Reasoning about coroutines *)

Section Preservation.

Variable I : State -> Prop.

Lemma preserves_ret A (a : A) : preserves I (ret a).
Proof. intros st H. exact H. Qed.

Lemma preserves_raise A (e : Exn) : preserves I (@raise A e).
Proof. intros st H. exact H. Qed.

Lemma preserves_await A (r : Exn + A) : preserves I (await r).
Proof. intros st H. destruct r; exact H. Qed.

Lemma preserves_bind A B (c : M A) (k : A -> M B) :
  preserves I c -> (forall a, preserves I (k a)) -> preserves I (bind c k).
Proof.
  intros Hc Hk st H. unfold bind.
  specialize (Hc st H).
  destruct (c st) as [ [ e | a ] st' ]; simpl in *.
  - exact Hc.
  - apply Hk, Hc.
Qed.

Lemma preserves_bind_result A B (c : M A) (k : A -> M B) :
  preserves I c ->
  (forall a st, fst (c st) = inr a -> preserves I (k a)) ->
  preserves I (bind c k).
Proof.
  intros Hc Hk st H. unfold bind.
  specialize (Hc st H). specialize (fun a => Hk a st).
  destruct (c st) as [ [ e | a ] st' ]; simpl in *.
  - exact Hc.
  - now apply Hk.
Qed.

Lemma preserves_try_except A (c : M A) handles (h : M A) :
  preserves I c -> preserves I h -> preserves I (try_except c handles h).
Proof.
  intros Hc Hh st H. unfold try_except.
  specialize (Hc st H).
  destruct (c st) as [ [ e | a ] st' ]; simpl in *.
  - destruct (handles e); [ apply Hh, Hc | exact Hc ].
  - exact Hc.
Qed.

Lemma preserves_try_finally A (c : M A) (f : M unit) :
  preserves I c -> preserves I f -> preserves I (try_finally c f).
Proof.
  intros Hc Hf st H. unfold try_finally.
  specialize (Hc st H).
  destruct (c st) as [ r st' ]; simpl in *.
  specialize (Hf st' Hc).
  destruct (f st') as [ [ e | u ] st'' ]; exact Hf.
Qed.

Lemma preserves_get id : preserves I (Objects.get id).
Proof.
  intros st H. unfold Objects.get.
  destruct (Objects.matching id (table st)) as [ | r [ | r' l ] ]; exact H.
Qed.

End Preservation.

(** ** The Mirror Store *)

Lemma matching_app id l l' :
  Objects.matching id (l ++ l') = Objects.matching id l ++ Objects.matching id l'.
Proof. apply filter_app. Qed.

Lemma get_found id entry st :
  Objects.matching id (table st) = [entry] ->
  Objects.get id st = (inr entry, st).
Proof. intros H. unfold Objects.get. now rewrite H. Qed.

Lemma get_missing id st :
  Objects.matching id (table st) = [] ->
  Objects.get id st = (inl NoMatch, st).
Proof. intros H. unfold Objects.get. now rewrite H. Qed.

Lemma get_or_create_found channel id entry st :
  Objects.matching id (table st) = [entry] ->
  Objects.get_or_create channel id st = (inr (entry, false), st).
Proof.
  intros H. unfold Objects.get_or_create, try_except, bind.
  now rewrite (get_found _ _ _ H).
Qed.

Lemma get_or_create_missing channel id st :
  Objects.matching id (table st) = [] ->
  Objects.get_or_create channel id st
  = (inr ({| sb_id := id; sb_channel := channel;
             sb_starboard_message := None |}, true),
     {| table := table st ++ [{| sb_id := id; sb_channel := channel;
                                 sb_starboard_message := None |}];
        effects := effects st |}).
Proof.
  intros H. unfold Objects.get_or_create, try_except, bind.
  now rewrite (get_missing _ _ H).
Qed.

Lemma matching_id id rows r : In r (Objects.matching id rows) -> sb_id r = id.
Proof.
  unfold Objects.matching. rewrite filter_In. intros [ _ H ].
  now apply Z.eqb_eq.
Qed.

(** Deleting the rows of an id that has none changes nothing. *)
Lemma filter_other_id id rows :
  Objects.matching id rows = [] ->
  filter (fun r => negb (sb_id r =? id)) rows = rows.
Proof.
  induction rows as [ | r rows IH ]; simpl; [ reflexivity | ].
  destruct (sb_id r =? id); simpl; [ discriminate | ].
  intros H. now rewrite IH.
Qed.

Lemma matching_after_delete id id' rows :
  Objects.matching id (filter (fun r => negb (sb_id r =? id')) rows)
  = if id =? id' then [] else Objects.matching id rows.
Proof.
  induction rows as [ | r rows IH ]; simpl.
  - now destruct (id =? id').
  - destruct (sb_id r =? id') eqn:E1; simpl;
      destruct (sb_id r =? id) eqn:E2; simpl; rewrite IH;
      destruct (id =? id') eqn:E3; try reflexivity;
      apply Z.eqb_eq in E2; subst.
    + rewrite E1 in E3. discriminate.
    + rewrite E1 in E3. discriminate.
Qed.

Lemma matching_after_update id id' m rows :
  Objects.matching id
    (map (fun r => if sb_id r =? id'
                   then {| sb_id := sb_id r; sb_channel := sb_channel r;
                           sb_starboard_message := Some m |}
                   else r) rows)
  = map (fun r => if sb_id r =? id'
                  then {| sb_id := sb_id r; sb_channel := sb_channel r;
                          sb_starboard_message := Some m |}
                  else r) (Objects.matching id rows).
Proof.
  induction rows as [ | r rows IH ]; simpl; [ reflexivity | ].
  destruct (sb_id r =? id') eqn:E1; simpl;
    destruct (sb_id r =? id) eqn:E2; simpl; rewrite ?E1, IH; reflexivity.
Qed.

Lemma at_most_one_get_or_create channel id :
  preserves at_most_one (Objects.get_or_create channel id).
Proof.
  intros st H.
  destruct (Objects.matching id (table st)) as [ | r [ | r' l ] ] eqn:E.
  - rewrite (get_or_create_missing _ _ _ E). simpl.
    intros id'. simpl. rewrite matching_app, length_app. simpl.
    destruct (id =? id') eqn:E'; simpl.
    + apply Z.eqb_eq in E'. subst. rewrite E. simpl. lia.
    + specialize (H id'). lia.
  - rewrite (get_or_create_found _ _ _ _ E). exact H.
  - specialize (H id). rewrite E in H. simpl in H. lia.
Qed.

Lemma at_most_one_delete entry : preserves at_most_one (Objects.delete entry).
Proof.
  intros st H id. simpl. rewrite matching_after_delete.
  destruct (id =? sb_id entry); simpl; [ lia | apply H ].
Qed.

Lemma at_most_one_update entry m : preserves at_most_one (Objects.update entry m).
Proof.
  intros st H id. simpl. rewrite matching_after_update, length_map. apply H.
Qed.

Lemma at_most_one_perform a : preserves at_most_one (perform a).
Proof. intros st H. exact H. Qed.

(** ** The renderer *)

Section RendererProperties.

Variable format_dt : Z -> string.
Variable shorten : string -> Z -> Exn + string.

(** The renderer reads neither the store nor the log of effects, and
    leaves both as they are. *)
Lemma generate_starboard_embed_pure env message st :
  generate_starboard_embed format_dt shorten env message st
  = (fst (generate_starboard_embed format_dt shorten env message initial_state),
     st).
Proof.
  unfold generate_starboard_embed, bind, await, try_except, ret, raise.
  destruct (renderer_cap env message); simpl; [ reflexivity | ].
  destruct (msg_reference message); simpl.
  - destruct (fetch_message env _ _); simpl.
    + destruct (is_HTTPException e); simpl; [ | reflexivity ].
      destruct (fold_left _ _ _); reflexivity.
    + destruct (render_reply shorten _ m); simpl; [ reflexivity | ].
      destruct (fold_left _ _ _); reflexivity.
  - destruct (fold_left _ _ _); reflexivity.
Qed.

Lemma generate_starboard_embed_state env message st :
  snd (generate_starboard_embed format_dt shorten env message st) = st.
Proof. now rewrite generate_starboard_embed_pure. Qed.

(** C9.  Two invocations of the renderer on the same message yield the
    same embed, or the same exception, whenever the guild reports the same
    member count and the reply reference resolves alike; whatever else
    differs between the two invocations (the store, the effects performed so
    far, what the transport answers for other messages or for sends and
    edits) has no influence.  The renderer changes neither store nor log. *)
Theorem render_deterministic env1 env2 st1 st2 message :
  g_member_count (guild env1) = g_member_count (guild env2) ->
  (forall reference,
      msg_reference message = Some reference ->
      fetch_message env1 (ref_channel_id reference) (ref_message_id reference)
      = fetch_message env2 (ref_channel_id reference) (ref_message_id reference)) ->
  fst (generate_starboard_embed format_dt shorten env1 message st1)
  = fst (generate_starboard_embed format_dt shorten env2 message st2)
  /\ snd (generate_starboard_embed format_dt shorten env1 message st1) = st1
  /\ snd (generate_starboard_embed format_dt shorten env2 message st2) = st2.
Proof.
  intros Hcount Href.
  split; [ | split; apply generate_starboard_embed_state ].
  unfold generate_starboard_embed, renderer_cap, bind, await, try_except, ret, raise.
  rewrite Hcount.
  destruct (msg_reference message) as [ reference | ] eqn:Hr.
  - rewrite (Href reference eq_refl).
    destruct (if PyStr.contains _ _ then _ else _); simpl; [ reflexivity | ].
    destruct (fetch_message env2 _ _); simpl.
    + destruct (is_HTTPException e); simpl; [ | reflexivity ].
      destruct (fold_left _ _ _); reflexivity.
    + destruct (render_reply shorten _ m); simpl; [ reflexivity | ].
      destruct (fold_left _ _ _); reflexivity.
  - destruct (if PyStr.contains _ _ then _ else _); simpl; [ reflexivity | ].
    destruct (fold_left _ _ _); reflexivity.
Qed.

End RendererProperties.

(** ** The listener keeps what its steps keep *)

Section ListenerInvariant.

Variable format_dt : Z -> string.
Variable shorten : string -> Z -> Exn + string.
Variable env : Env.
Variable payload : Payload.

(** A property of the state, the effects that may be performed without
    breaking it, and a property of the messages fetched under the id of
    the event. *)
Variable I : State -> Prop.
Variable allowed : Action -> Prop.
Variable source : Message -> Prop.

Hypothesis source_fetch :
  forall channel message,
    fetch_message env channel (p_message_id payload) = inr message ->
    source message.

Hypothesis I_get_or_create :
  forall channel id, preserves I (Objects.get_or_create channel id).
Hypothesis I_delete : forall entry, preserves I (Objects.delete entry).
Hypothesis I_update : forall entry m, preserves I (Objects.update entry m).
Hypothesis I_perform : forall a, allowed a -> preserves I (perform a).

Hypothesis allowed_other : forall a, is_mirror_post a = false -> allowed a.
Hypothesis allowed_Send :
  forall message embed channel new_id,
    source message ->
    fst (generate_starboard_embed format_dt shorten env message initial_state)
    = inr embed ->
    allowed (Send channel (assemble_embeds embed message) new_id).
Hypothesis allowed_Edit :
  forall message embed channel mirror,
    source message ->
    fst (generate_starboard_embed format_dt shorten env message initial_state)
    = inr embed ->
    allowed (Edit channel mirror (assemble_embeds embed message)).

Lemma preserves_generate A message (k : Embed -> M A) :
  (forall embed,
      fst (generate_starboard_embed format_dt shorten env message initial_state)
      = inr embed ->
      preserves I (k embed)) ->
  preserves I (bind (generate_starboard_embed format_dt shorten env message) k).
Proof.
  intros Hk st H. unfold bind.
  rewrite generate_starboard_embed_pure.
  destruct (fst _) as [ e | embed ] eqn:E; simpl.
  - exact H.
  - now apply Hk.
Qed.

Lemma preserves_post channel entry message embed :
  source message ->
  fst (generate_starboard_embed format_dt shorten env message initial_state)
  = inr embed ->
  preserves I (post env channel entry (assemble_embeds embed message)).
Proof.
  intros Hs He. unfold post.
  apply preserves_bind; [ apply preserves_await | intros msg ].
  apply preserves_bind; [ apply I_perform; now apply allowed_Send | intros _ ].
  apply preserves_bind; [ apply I_update | intros _ ].
  apply I_perform. now apply allowed_other.
Qed.

(** The message the listener goes on with after the demotion is the one
    it had, or the one fetched from the starboard channel under the id of
    the event. *)
Lemma demote_returns message message' st :
  fst (demote env payload message st) = inr (Some message') ->
  message' = message
  \/ exists channel,
       fetch_message env channel (p_message_id payload) = inr message'.
Proof.
  unfold demote, bind at 1, try_except, bind at 1, Objects.get.
  destruct (Objects.matching (p_message_id payload) (table st))
    as [ | database [ | database' l ] ] eqn:Hm; simpl; try discriminate.
  assert (Hid : sb_id database = p_message_id payload).
  { apply (matching_id _ (table st)). rewrite Hm. now left. }
  destruct (starboard_channel (guild env)) as [ channel | ].
  - unfold bind, try_finally, try_except, await, perform, Objects.delete, ret, raise.
    rewrite Hid.
    destruct (fetch_message env (tc_id channel) (p_message_id payload))
      as [ e | fetched ] eqn:Hf; simpl.
    + destruct (is_HTTPException e); simpl; [ | discriminate ].
      intros H; injection H as <-. now left.
    + intros H; injection H as <-. right. now exists (tc_id channel).
  - unfold bind, Objects.delete, ret. simpl.
    intros H; injection H as <-. now left.
Qed.

Lemma preserves_demote message :
  preserves I (demote env payload message).
Proof.
  unfold demote.
  apply preserves_bind.
  { apply preserves_try_except; [ | apply preserves_ret ].
    apply preserves_bind; [ apply preserves_get | intros; apply preserves_ret ]. }
  intros [ database | ]; [ | apply preserves_ret ].
  destruct (starboard_channel (guild env)) as [ channel | ].
  - apply preserves_bind; [ | intros; apply preserves_ret ].
    apply preserves_try_finally; [ | apply I_delete ].
    apply preserves_try_except; [ | apply preserves_ret ].
    apply preserves_bind; [ apply preserves_await | intros fetched ].
    apply preserves_bind; [ | intros; apply preserves_ret ].
    apply I_perform. now apply allowed_other.
  - apply preserves_bind; [ apply I_delete | intros; apply preserves_ret ].
Qed.

Lemma preserves_synchronize message star_count :
  source message ->
  preserves I (synchronize format_dt shorten env payload message star_count).
Proof.
  intros Hs. unfold synchronize.
  apply preserves_bind; [ apply I_get_or_create | intros [ entry created ] ].
  destruct created.
  - apply preserves_bind; [ apply preserves_await | intros cap ].
    destruct (Float64.int_ge star_count cap); [ | apply I_delete ].
    destruct (starboard_channel (guild env)) as [ channel | ];
      [ | apply preserves_ret ].
    destruct (tc_can_send channel); [ | apply preserves_ret ].
    apply preserves_generate. intros embed He.
    now apply preserves_post.
  - cbv zeta. apply preserves_generate. intros embed He.
    destruct (starboard_channel (guild env)) as [ channel | ];
      [ | apply preserves_ret ].
    destruct (sb_starboard_message entry) as [ mirror | ];
      [ | apply preserves_ret ].
    destruct (tc_can_send channel && negb (mirror =? 0));
      [ | apply preserves_ret ].
    apply preserves_bind.
    { apply preserves_try_except; [ | apply preserves_ret ].
      apply preserves_try_except; [ | apply preserves_ret ].
      apply preserves_bind; [ apply preserves_await | intros; apply preserves_ret ]. }
    intros [ | | ].
    + apply preserves_bind; [ apply preserves_await | intros _ ].
      apply preserves_bind; [ apply I_perform; now apply allowed_Edit | intros _ ].
      apply I_perform. now apply allowed_other.
    + now apply preserves_post.
    + apply preserves_ret.
Qed.

Lemma preserves_reject_self_star message :
  preserves I (reject_self_star env payload message).
Proof.
  unfold reject_self_star.
  apply preserves_bind.
  - destruct (ch_manage_messages (msg_channel message));
      [ | apply preserves_ret ].
    apply preserves_bind; [ apply preserves_await | intros _ ].
    apply I_perform. now apply allowed_other.
  - intros _.
    apply preserves_bind; [ apply preserves_await | intros _ ].
    apply I_perform. now apply allowed_other.
Qed.

Lemma preserves_curate message :
  source message ->
  preserves I (curate format_dt shorten env payload message).
Proof.
  intros Hs. unfold curate. cbv zeta.
  apply preserves_bind_result.
  - destruct (star_tally message =? 0);
      [ apply preserves_demote | apply preserves_ret ].
  - intros [ message' | ] st1 Hd; [ | apply preserves_ret ].
    apply preserves_synchronize.
    destruct (star_tally message =? 0).
    + apply demote_returns in Hd. destruct Hd as [ -> | [ channel Hd ] ].
      * exact Hs.
      * now apply (source_fetch channel).
    + simpl in Hd. congruence.
Qed.

Lemma preserves_on_star_add :
  preserves I (on_star_add format_dt shorten env payload).
Proof.
  unfold on_star_add.
  destruct (negb (truthy_id (p_guild_id payload))); [ apply preserves_ret | ].
  destruct (negb (p_emoji payload =? star)%string); [ apply preserves_ret | ].
  apply preserves_bind_result; [ apply preserves_await | intros message st0 Hm ].
  assert (Hs : source message).
  { apply (source_fetch (p_channel_id payload)).
    unfold await in Hm. destruct (fetch_message env _ _); [ discriminate | ].
    simpl in Hm. congruence. }
  destruct (_ && _).
  - apply preserves_reject_self_star.
  - now apply preserves_curate.
Qed.

End ListenerInvariant.

(** ** The Mirror Store under the listener *)

Section StoreProperties.

Variable format_dt : Z -> string.
Variable shorten : string -> Z -> Exn + string.

Lemma at_most_one_on_star_add env payload :
  preserves at_most_one (on_star_add format_dt shorten env payload).
Proof.
  apply (preserves_on_star_add format_dt shorten env payload at_most_one
           (fun _ => True) (fun _ => True)); auto.
  - apply at_most_one_get_or_create.
  - apply at_most_one_delete.
  - apply at_most_one_update.
  - intros a _. apply at_most_one_perform.
Qed.

Lemma at_most_one_run events :
  forall st, at_most_one st -> at_most_one (run format_dt shorten events st).
Proof.
  induction events as [ | [ env payload ] events IH ]; intros st H; simpl.
  - exact H.
  - apply IH. unfold handle. now apply at_most_one_on_star_add.
Qed.

(** How the listener starts: it ignores the event, or the fetch of the
    message fails, or the message is there and the listener rejects a
    self-star or goes on to curate. *)
Lemma on_star_add_cases env payload st :
  on_star_add format_dt shorten env payload st = (inr tt, st)
  \/ (exists e,
         fetch_message env (p_channel_id payload) (p_message_id payload) = inl e
         /\ on_star_add format_dt shorten env payload st = (inl e, st))
  \/ (exists message,
         fetch_message env (p_channel_id payload) (p_message_id payload)
         = inr message
         /\ truthy_id (p_guild_id payload) = true
         /\ p_emoji payload = star
         /\ on_star_add format_dt shorten env payload st
            = if (u_id (msg_author message) =? p_user_id payload)
                 && is_add (p_event_type payload)
              then reject_self_star env payload message st
              else curate format_dt shorten env payload message st).
Proof.
  unfold on_star_add.
  destruct (truthy_id (p_guild_id payload)); simpl; [ | now left ].
  destruct (p_emoji payload =? star)%string eqn:He; simpl; [ | now left ].
  apply String.eqb_eq in He.
  right. unfold bind, await.
  destruct (fetch_message env _ _) as [ e | message ]; simpl.
  - left. now exists e.
  - right. exists message. repeat split; auto.
    now destruct (_ && _).
Qed.

(** What a rejected self-star does: it leaves the table alone and performs
    no effect on a mirror. *)
Lemma reject_self_star_effects env payload message st :
  table (snd (reject_self_star env payload message st)) = table st
  /\ exists added,
       effects (snd (reject_self_star env payload message st))
       = effects st ++ added
       /\ forall a, In a added -> is_mirror_post a = false.
Proof.
  unfold reject_self_star, bind, await, perform, ret, raise.
  destruct (ch_manage_messages (msg_channel message)).
  - destruct (remove_reaction env _ _ _); simpl.
    { split; [ reflexivity | ]. exists []. rewrite app_nil_r.
      split; [ reflexivity | intros a [] ]. }
    destruct (reply env _ _); simpl.
    + split; [ reflexivity | ]. eexists [_]. split; [ reflexivity | ].
      intros a [ <- | [] ]. reflexivity.
    + split; [ reflexivity | ]. eexists [_; _]. rewrite <- app_assoc.
      split; [ reflexivity | ].
      intros a [ <- | [ <- | [] ] ]; reflexivity.
  - destruct (reply env _ _); simpl.
    + split; [ reflexivity | ]. exists []. rewrite app_nil_r.
      split; [ reflexivity | intros a [] ].
    + split; [ reflexivity | ]. eexists [_]. split; [ reflexivity | ].
      intros a [ <- | [] ]. reflexivity.
Qed.

(** An event on a message that has no row and whose tally is below the cap
    leaves the table as it was. *)
Lemma below_cap_untracked env payload message cap st :
  fetch_message env (p_channel_id payload) (p_message_id payload) = inr message ->
  threshold env message = inr cap ->
  Float64.int_ge (star_tally message) cap = false ->
  Objects.matching (p_message_id payload) (table st) = [] ->
  table (handle format_dt shorten st (env, payload)) = table st.
Proof.
  intros Hfetch Hcap Hbelow Hnone.
  unfold handle. simpl fst; simpl snd.
  destruct (on_star_add_cases env payload st)
    as [ -> | [ (e & He & ->) | (message' & Hm & _ & _ & ->) ] ];
    try reflexivity.
  rewrite Hfetch in Hm. injection Hm as <-.
  destruct (_ && _); [ apply reject_self_star_effects | ].
  unfold curate. cbv zeta. destruct (star_tally message =? 0) eqn:Hz.
  - unfold bind at 1. unfold demote.
    unfold bind at 1. unfold try_except, bind at 1.
    rewrite (get_missing _ _ Hnone). simpl. reflexivity.
  - unfold bind at 1. simpl. unfold synchronize.
    unfold bind at 1. rewrite (get_or_create_missing _ _ _ Hnone).
    unfold bind at 1. rewrite Hcap. simpl. rewrite Hbelow. simpl.
    rewrite filter_app. simpl. rewrite Z.eqb_refl. simpl.
    rewrite app_nil_r. now apply filter_other_id.
Qed.

(** C2.  From a store with at most one row per source message, the store
    has at most one row per source message after every prefix of every
    sequence of events, and every single store operation of the listener
    keeps it so.  In particular, when an event on a message that has no row
    and whose tally is below the cap is handled twice, the store has no row
    for that message after the first time and after the second. *)
Theorem mirror_store_at_most_one events st :
  at_most_one st ->
  (forall k id,
      (List.length
         (Objects.matching id
            (table (run format_dt shorten (firstn k events) st))) <= 1)%nat)
  /\ (forall channel id, preserves at_most_one (Objects.get_or_create channel id))
  /\ (forall entry, preserves at_most_one (Objects.delete entry))
  /\ (forall entry m, preserves at_most_one (Objects.update entry m))
  /\ (forall env payload message cap,
         fetch_message env (p_channel_id payload) (p_message_id payload)
         = inr message ->
         threshold env message = inr cap ->
         Float64.int_ge (star_tally message) cap = false ->
         Objects.matching (p_message_id payload)
                          (table (run format_dt shorten events st)) = [] ->
         let once := run format_dt shorten (events ++ [(env, payload)]) st in
         let twice :=
           run format_dt shorten (events ++ [(env, payload); (env, payload)]) st in
         Objects.matching (p_message_id payload) (table once) = []
         /\ Objects.matching (p_message_id payload) (table twice) = []).
Proof.
  intros H.
  split; [ intros k id; now apply at_most_one_run | ].
  split; [ apply at_most_one_get_or_create | ].
  split; [ apply at_most_one_delete | ].
  split; [ apply at_most_one_update | ].
  intros env payload message cap Hfetch Hcap Hbelow Hnone once twice.
  subst once twice. unfold run. rewrite !fold_left_app. simpl.
  fold (run format_dt shorten events st).
  assert (H1 : table (handle format_dt shorten (run format_dt shorten events st)
                             (env, payload))
               = table (run format_dt shorten events st))
    by now apply (below_cap_untracked env payload message cap).
  split.
  - now rewrite H1.
  - rewrite (below_cap_untracked env payload message cap), H1; auto.
    now rewrite H1.
Qed.

(** ** The embeds of a mirror *)

Lemma assemble_embeds_spec embed message :
  assemble_embeds embed message
  = embed :: firstn 9 (filter (fun x => String.eqb (e_type x) "rich")
                              (msg_embeds message)).
Proof. reflexivity. Qed.

Lemma assemble_embeds_length embed message :
  (1 <= List.length (assemble_embeds embed message) <= 10)%nat.
Proof.
  rewrite assemble_embeds_spec. cbn [List.length].
  pose proof (firstn_le_length 9
                (filter (fun x => String.eqb (e_type x) "rich")
                        (msg_embeds message))).
  lia.
Qed.

(** C8.  What an event adds to the log of effects is appended to it, and
    every [Send] and every [Edit] among the added effects carries the embed
    generated for a message fetched under the id of the event, followed by
    the rich embeds of that message in their order, cut after the ninth: at
    least one embed and at most ten. *)
Theorem mirror_embeds_composed env payload st :
  exists added,
    effects (handle format_dt shorten st (env, payload)) = effects st ++ added
    /\ forall a,
         In a added ->
         match a with
         | Send _ embeds _ | Edit _ _ embeds =>
             composed format_dt shorten env payload embeds
             /\ (1 <= List.length embeds <= 10)%nat
         | _ => True
         end.
Proof.
  set (good := fun a =>
         match a with
         | Send _ embeds _ | Edit _ _ embeds =>
             composed format_dt shorten env payload embeds
             /\ (1 <= List.length embeds <= 10)%nat
         | _ => True
         end).
  set (source := fun message =>
         exists channel,
           fetch_message env channel (p_message_id payload) = inr message).
  set (inv := fun st' =>
         exists added,
           effects st' = effects st ++ added /\ forall a, In a added -> good a).
  assert (Hinv : preserves inv (on_star_add format_dt shorten env payload)).
  { apply (preserves_on_star_add format_dt shorten env payload inv good source).
    - intros channel message Hf. now exists channel.
    - intros channel id st' [ added [ He Hg ] ].
      exists added. split; [ | exact Hg ].
      destruct (Objects.matching id (table st')) as [ | r [ | r' l ] ] eqn:E.
      + now rewrite (get_or_create_missing _ _ _ E).
      + now rewrite (get_or_create_found _ _ _ _ E).
      + unfold Objects.get_or_create, try_except, bind, Objects.get.
        now rewrite E.
    - intros entry st' Hi. exact Hi.
    - intros entry m st' Hi. exact Hi.
    - intros a Ha st' [ added [ He Hg ] ].
      exists (added ++ [a]). simpl. rewrite He, app_assoc. split; [ reflexivity | ].
      intros a' Hin. apply in_app_or in Hin.
      destruct Hin as [ Hin | [ <- | [] ] ]; auto.
    - intros a Ha. destruct a; simpl in *; try exact Logic.I; discriminate.
    - intros message embed channel new_id [ ch Hf ] Hr. unfold good. split.
      + exists ch, message, embed. auto.
      + apply assemble_embeds_length.
    - intros message embed channel mirror [ ch Hf ] Hr. unfold good. split.
      + exists ch, message, embed. auto.
      + apply assemble_embeds_length. }
  apply Hinv. exists []. rewrite app_nil_r. split; [ reflexivity | intros a [] ].
Qed.

End StoreProperties.

(** ** Single events *)

Section EventProperties.

Variable format_dt : Z -> string.
Variable shorten : string -> Z -> Exn + string.

(** C4.  A reaction-add event whose actor is the author of the message
    leaves the Mirror Store as it is.  When the event is a star in a guild,
    the listener removes the reaction if it may manage messages, replies to
    the author, and returns: these are the only effects. *)
Theorem self_star_rejected env payload message st :
  fetch_message env (p_channel_id payload) (p_message_id payload) = inr message ->
  u_id (msg_author message) = p_user_id payload ->
  p_event_type payload = REACTION_ADD ->
  table (handle format_dt shorten st (env, payload)) = table st
  /\ (truthy_id (p_guild_id payload) = true ->
      p_emoji payload = star ->
      (if ch_manage_messages (msg_channel message)
       then remove_reaction env (msg_id message) star (u_id (msg_author message))
            = inr tt
       else True) ->
      reply env (msg_id message) (self_star_reply message) = inr tt ->
      on_star_add format_dt shorten env payload st
      = (inr tt,
         {| table := table st;
            effects :=
              effects st
              ++ (if ch_manage_messages (msg_channel message)
                  then [RemoveReaction (msg_id message) star
                                       (u_id (msg_author message))]
                  else [])
              ++ [Reply (msg_id message) (self_star_reply message)] |})).
Proof.
  intros Hfetch Hself Hadd.
  assert (Hcond : ((u_id (msg_author message) =? p_user_id payload)
                   && is_add (p_event_type payload)) = true)
    by now rewrite Hself, Hadd, Z.eqb_refl.
  unfold handle. simpl fst; simpl snd.
  destruct (on_star_add_cases format_dt shorten env payload st)
    as [ Hskip | [ (e & He & Hraise) | (message' & Hm & Hg & Hs & Hrun) ] ].
  - split; [ now rewrite Hskip | ].
    intros Hguild Hemoji. exfalso.
    unfold on_star_add in Hskip.
    rewrite Hguild, Hemoji, String.eqb_refl in Hskip. simpl in Hskip.
    unfold bind, await in Hskip. rewrite Hfetch in Hskip. simpl in Hskip.
    rewrite Hcond in Hskip.
    pose proof (reject_self_star_effects env payload message st) as [ _ (added & Ha & _) ].
    revert Hskip Ha. unfold reject_self_star, bind, await, perform, ret, raise.
    destruct (ch_manage_messages (msg_channel message));
      repeat (destruct (remove_reaction env _ _ _); simpl);
      repeat (destruct (reply env _ _); simpl);
      intros H _; try discriminate;
      injection H as H; apply (f_equal effects) in H; simpl in H;
      apply (f_equal (@List.length Action)) in H;
      rewrite ?length_app in H; simpl in H; lia.
  - congruence.
  - rewrite Hfetch in Hm. injection Hm as <-.
    rewrite Hrun, Hcond.
    split; [ apply reject_self_star_effects | ].
    intros _ _ Hremove Hreply.
    unfold reject_self_star, bind, await, perform, ret, raise.
    rewrite Hs.
    destruct (ch_manage_messages (msg_channel message)).
    + rewrite Hremove. simpl. rewrite Hreply. simpl.
      now rewrite <- app_assoc.
    + rewrite Hreply. simpl. reflexivity.
Qed.

(** X21.  What the demotion deletes.  Its only effect on Discord is the
    deletion of the message that the starboard channel yields under the id
    of the source message, and it has that effect exactly when the message
    has one row, the guild has a starboard channel and that fetch succeeds;
    when the fetch fails, and in every other case, it performs no effect at
    all.  The mirror id stored in the row is not read. *)
Lemma demote_deletes_what_it_fetched env payload message st :
  effects (snd (demote env payload message st))
  = effects st
    ++ match Objects.matching (p_message_id payload) (table st),
             starboard_channel (guild env) with
       | [ _ ], Some channel =>
           match fetch_message env (tc_id channel) (p_message_id payload) with
           | inr fetched => [ DeleteMessage (tc_id channel) (msg_id fetched) ]
           | inl _ => []
           end
       | _, _ => []
       end.
Proof.
  unfold demote, bind at 1, try_except, bind at 1, Objects.get.
  destruct (Objects.matching (p_message_id payload) (table st))
    as [ | database [ | database' l ] ] eqn:Hm; cbn [fst snd is_NoMatch ret];
    try (destruct (starboard_channel (guild env)); now rewrite app_nil_r).
  assert (Hid : sb_id database = p_message_id payload).
  { apply (matching_id _ (table st)). rewrite Hm. now left. }
  destruct (starboard_channel (guild env)) as [ channel | ].
  - unfold bind, try_finally, try_except, await, perform, Objects.delete, ret, raise.
    rewrite Hid.
    destruct (fetch_message env (tc_id channel) (p_message_id payload))
      as [ e | fetched ] eqn:Hf; cbn [fst snd effects].
    + destruct (is_HTTPException e); cbn [fst snd effects];
        now rewrite app_nil_r.
    + reflexivity.
  - unfold bind, Objects.delete, ret. cbn [fst snd effects].
    now rewrite app_nil_r.
Qed.

(** With a row that has no mirror, the synchronizer changes nothing. *)
Lemma synchronize_unposted env payload message star_count entry st :
  Objects.matching (p_message_id payload) (table st) = [entry] ->
  sb_starboard_message entry = None ->
  snd (synchronize format_dt shorten env payload message star_count st) = st.
Proof.
  intros Hrow Hnone. unfold synchronize.
  unfold bind at 1. rewrite (get_or_create_found _ _ _ _ Hrow).
  cbv zeta. unfold bind at 1. rewrite generate_starboard_embed_pure.
  destruct (fst _) as [ e | embed ]; [ reflexivity | ].
  rewrite Hnone. destruct (starboard_channel (guild env)); reflexivity.
Qed.

(** C10.  When the message of the event has a row whose mirror id is unset
    and its tally is not 0, handling the event leaves the Mirror Store
    unchanged and performs neither a [Send] nor an [Edit], whatever the cap;
    unless the event is a self-star being rejected, it changes nothing at
    all. *)
Theorem unposted_record_stays env payload message entry st :
  fetch_message env (p_channel_id payload) (p_message_id payload) = inr message ->
  star_tally message <> 0 ->
  Objects.matching (p_message_id payload) (table st) = [entry] ->
  sb_starboard_message entry = None ->
  table (handle format_dt shorten st (env, payload)) = table st
  /\ (exists added,
         effects (handle format_dt shorten st (env, payload))
         = effects st ++ added
         /\ forall a, In a added -> is_mirror_post a = false)
  /\ (((u_id (msg_author message) =? p_user_id payload)
       && is_add (p_event_type payload)) = false ->
      handle format_dt shorten st (env, payload) = st).
Proof.
  intros Hfetch Htally Hrow Hnone.
  assert (Hz : (star_tally message =? 0) = false) by now apply Z.eqb_neq.
  assert (Hsame : forall st' : State,
             st' = st ->
             table st' = table st
             /\ (exists added,
                    effects st' = effects st ++ added
                    /\ forall a, In a added -> is_mirror_post a = false)).
  { intros st' ->. split; [ reflexivity | ].
    exists []. rewrite app_nil_r. split; [ reflexivity | intros a [] ]. }
  unfold handle. simpl fst; simpl snd.
  destruct (on_star_add_cases format_dt shorten env payload st)
    as [ -> | [ (e & He & ->) | (message' & Hm & _ & _ & ->) ] ]; simpl.
  - destruct (Hsame st eq_refl) as [ H1 H2 ]. auto.
  - destruct (Hsame st eq_refl) as [ H1 H2 ]. auto.
  - rewrite Hfetch in Hm. injection Hm as <-.
    destruct (_ && _).
    + destruct (reject_self_star_effects env payload message st) as [ H1 H2 ].
      split; [ exact H1 | split; [ exact H2 | discriminate ] ].
    + assert (Hst : snd (curate format_dt shorten env payload message st) = st).
      { unfold curate. cbv zeta. rewrite Hz. unfold bind at 1. simpl.
        now apply (synchronize_unposted env payload message _ entry). }
      rewrite Hst. destruct (Hsame st eq_refl) as [ H1 H2 ]. auto.
Qed.


(** An integer 0 reaches a cap exactly when the cap is not positive. *)
Lemma int_ge_zero cap : Float64.int_ge 0 cap = (Float64.mant cap <=? 0).
Proof.
  unfold Float64.int_ge. destruct (0 <=? Float64.expo cap) eqn:E.
  - apply Z.leb_le in E.
    assert (0 < 2 ^ Float64.expo cap) by now apply Z.pow_pos_nonneg.
    destruct (Float64.mant cap <=? 0) eqn:E'.
    + apply Z.leb_le. apply Z.leb_le in E'. nia.
    + apply Z.leb_gt. apply Z.leb_gt in E'. nia.
  - reflexivity.
Qed.

(** When the get-or-create step has just created the row, the tally is 0
    and the cap is greater than 0, the synchronizer deletes the row it
    created and stops: the store and the log of effects are as before, so
    nothing was posted. *)
Theorem created_without_stars_is_deleted env payload message cap st :
  Objects.matching (p_message_id payload) (table st) = [] ->
  threshold env message = inr cap ->
  0 < Float64.mant cap ->
  synchronize format_dt shorten env payload message 0 st = (inr tt, st).
Proof.
  intros Hnone Hcap Hpos. unfold synchronize.
  unfold bind at 1. rewrite (get_or_create_missing _ _ _ Hnone).
  unfold bind at 1. rewrite Hcap. simpl.
  rewrite int_ge_zero.
  assert (Hle : (Float64.mant cap <=? 0) = false) by now apply Z.leb_gt.
  rewrite Hle. unfold Objects.delete. simpl.
  rewrite filter_app. simpl. rewrite Z.eqb_refl. simpl.
  rewrite app_nil_r, (filter_other_id _ _ Hnone).
  now destruct st.
Qed.

(** The three ways the fetch of the mirror message ends. *)
Lemma fetch_outcome A (r : Exn + A) st :
  try_except
    (try_except (await r ;;; ret Fetched) is_NotFound (ret Missing))
    is_HTTPException (ret Failed) st
  = match r with
    | inr _ => (inr Fetched, st)
    | inl e =>
        if is_NotFound e then (inr Missing, st)
        else if is_HTTPException e then (inr Failed, st)
             else (inl e, st)
    end.
Proof.
  unfold try_except, bind, await, ret, raise.
  destruct r as [ e | a ]; simpl; [ | reflexivity ].
  destruct e; reflexivity.
Qed.

(** Lines 177 to 192 when the row has a mirror id and the starboard
    channel can be written to. *)
Lemma synchronize_existing env payload message star_count entry mirror channel
      embed st :
  Objects.matching (p_message_id payload) (table st) = [entry] ->
  sb_starboard_message entry = Some mirror ->
  mirror <> 0 ->
  starboard_channel (guild env) = Some channel ->
  tc_can_send channel = true ->
  fst (generate_starboard_embed format_dt shorten env message initial_state)
  = inr embed ->
  synchronize format_dt shorten env payload message star_count st
  = match fetch_message env (tc_id channel) mirror with
    | inr _ =>
        (await (edit env (tc_id channel) mirror (assemble_embeds embed message)) ;;;
         perform (Edit (tc_id channel) mirror (assemble_embeds embed message)) ;;;
         perform (CreateTaskArchive mirror)) st
    | inl e =>
        if is_NotFound e
        then post env channel entry (assemble_embeds embed message) st
        else if is_HTTPException e then (inr tt, st) else (inl e, st)
    end.
Proof.
  intros Hrow Hmirror Hnz Hchan Hsend Hembed.
  assert (Hm0 : (mirror =? 0) = false) by now apply Z.eqb_neq.
  unfold synchronize.
  unfold bind at 1. rewrite (get_or_create_found _ _ _ _ Hrow).
  cbv zeta. unfold bind at 1. rewrite generate_starboard_embed_pure, Hembed.
  rewrite Hchan, Hmirror, Hsend, Hm0. simpl.
  unfold bind at 1. rewrite fetch_outcome.
  destruct (fetch_message env (tc_id channel) mirror) as [ e | m ];
    [ | reflexivity ].
  destruct (is_NotFound e); [ reflexivity | ].
  destruct (is_HTTPException e); reflexivity.
Qed.

(** An event that is not a rejected self-star, on a message with stars,
    goes straight to the synchronizer. *)
Lemma on_star_add_synchronize env payload message st :
  truthy_id (p_guild_id payload) = true ->
  p_emoji payload = star ->
  fetch_message env (p_channel_id payload) (p_message_id payload) = inr message ->
  ((u_id (msg_author message) =? p_user_id payload)
   && is_add (p_event_type payload)) = false ->
  star_tally message <> 0 ->
  on_star_add format_dt shorten env payload st
  = synchronize format_dt shorten env payload message (star_tally message) st.
Proof.
  intros Hguild Hemoji Hfetch Hnotself Htally.
  assert (Hz : (star_tally message =? 0) = false) by now apply Z.eqb_neq.
  unfold on_star_add. rewrite Hguild, Hemoji, String.eqb_refl. simpl.
  unfold bind at 1. rewrite Hfetch. simpl. rewrite Hnotself.
  unfold curate. cbv zeta. rewrite Hz. reflexivity.
Qed.

(** C5, amended.  The row exists with its mirror id set, the tally is not
    0 and the starboard channel can be written to.  When the fetch of the
    mirror message raises [NotFound], the embeds are sent as a new message,
    whether or not the tally reaches the cap; when that send succeeds, the
    row's mirror id becomes the id of the new message, the archiver is
    scheduled and the listener returns normally.  When the fetch raises any
    other HTTP error, the error is swallowed: nothing is posted, nothing
    changes and the listener returns normally.  An exception raised by the
    send of the repost, or by the edit after a successful fetch, is not
    caught: it ends the listener, and nothing has changed. *)
Theorem missing_mirror_reposted env payload message entry mirror channel embed st :
  truthy_id (p_guild_id payload) = true ->
  p_emoji payload = star ->
  fetch_message env (p_channel_id payload) (p_message_id payload) = inr message ->
  ((u_id (msg_author message) =? p_user_id payload)
   && is_add (p_event_type payload)) = false ->
  star_tally message <> 0 ->
  Objects.matching (p_message_id payload) (table st) = [entry] ->
  sb_starboard_message entry = Some mirror ->
  mirror <> 0 ->
  starboard_channel (guild env) = Some channel ->
  tc_can_send channel = true ->
  fst (generate_starboard_embed format_dt shorten env message initial_state)
  = inr embed ->
  (fetch_message env (tc_id channel) mirror = inl NotFound ->
   forall new_id,
     send env (tc_id channel) (assemble_embeds embed message) = inr new_id ->
     on_star_add format_dt shorten env payload st
     = (inr tt,
        {| table :=
             map (fun r =>
                    if sb_id r =? p_message_id payload
                    then {| sb_id := sb_id r; sb_channel := sb_channel r;
                            sb_starboard_message := Some new_id |}
                    else r) (table st);
           effects :=
             effects st
             ++ [Send (tc_id channel) (assemble_embeds embed message) new_id;
                 CreateTaskArchive new_id] |}))
  /\ (forall e,
         fetch_message env (tc_id channel) mirror = inl e ->
         is_HTTPException e = true ->
         is_NotFound e = false ->
         on_star_add format_dt shorten env payload st = (inr tt, st))
  /\ (forall e,
         fetch_message env (tc_id channel) mirror = inl NotFound ->
         send env (tc_id channel) (assemble_embeds embed message) = inl e ->
         on_star_add format_dt shorten env payload st = (inl e, st))
  /\ (forall fetched e,
         fetch_message env (tc_id channel) mirror = inr fetched ->
         edit env (tc_id channel) mirror (assemble_embeds embed message)
         = inl e ->
         on_star_add format_dt shorten env payload st = (inl e, st)).
Proof.
  intros Hguild Hemoji Hfetch Hnotself Htally Hrow Hmirror Hnz Hchan Hsend Hembed.
  assert (Hid : sb_id entry = p_message_id payload).
  { apply (matching_id _ (table st)). rewrite Hrow. now left. }
  rewrite (on_star_add_synchronize env payload message st) by assumption.
  rewrite (synchronize_existing env payload message _ entry mirror channel embed)
    by assumption.
  split; [ | split; [ | split ] ].
  - intros Hgone new_id Hnew. rewrite Hgone. simpl.
    unfold post, bind, await, perform, Objects.update, ret. rewrite Hnew. simpl.
    rewrite Hid, <- app_assoc. reflexivity.
  - intros e He Hhttp Hnot. now rewrite He, Hnot, Hhttp.
  - intros e Hgone Hfail. rewrite Hgone. cbn [is_NotFound].
    unfold post, bind, await, raise. now rewrite Hfail.
  - intros fetched e Hthere Hfail. rewrite Hthere.
    unfold bind, await, raise. now rewrite Hfail.
Qed.

End EventProperties.

(** ** The cap *)

(** Integers below 2 ^ 53 are floats. *)
Lemma of_int_exact n : Z.abs n < 2 ^ 53 -> Float64.of_int n = Float64.mk n 0.
Proof.
  intros H. unfold Float64.of_int, Float64.round53.
  assert (Hs : Z.log2 (Z.abs n) - 52 <= 0).
  { destruct (Z.eq_dec (Z.abs n) 0) as [ -> | Hnz ]; [ simpl; lia | ].
    assert (Z.log2 (Z.abs n) < 53); [ | lia ].
    apply Z.log2_lt_pow2; lia. }
  apply Z.leb_le in Hs. now rewrite Hs.
Qed.

(** Rounding moves the quotient up by one at most, and not at all below
    the half. *)
Lemma round53_bounds q r half :
  let q' := if (half <? r) || ((half =? r) && Z.odd q) then q + 1 else q in
  q <= q' <= q + 1 /\ (r < half -> q' = q).
Proof.
  simpl. destruct (half <? r) eqn:E1; simpl.
  - apply Z.ltb_lt in E1. split; lia.
  - destruct (half =? r) eqn:E2; simpl.
    + apply Z.eqb_eq in E2. destruct (Z.odd q); split; lia.
    + split; lia.
Qed.

(** For every population the cog can meet, the comparison of a tally with
    the binary64 product [population * 0.1] agrees with the comparison of
    ten times the tally with the population. *)
Lemma int_ge_times_tenth population tally :
  0 <= population < 2 ^ 50 ->
  Float64.int_ge tally (times_tenth population) = (population <=? 10 * tally).
Proof.
  intros [ Hn0 Hn ].
  unfold times_tenth. rewrite of_int_exact by lia.
  unfold Float64.mul, Float64.tenth; cbn [Float64.mant Float64.expo].
  change (0 + -55) with (-55).
  unfold Float64.round53.
  set (m := population * 3602879701896397).
  assert (Hm0 : 0 <= m) by (unfold m; lia).
  assert (Hm : m < 2 ^ 102) by (unfold m; change (2 ^ 102) with (2 ^ 50 * 2 ^ 52); nia).
  rewrite (Z.abs_eq m Hm0).
  destruct (Z.log2 m - 52 <=? 0) eqn:Hs.
  - apply Z.leb_le in Hs.
    assert (Hsmall : m < 2 ^ 53).
    { destruct (Z.eq_dec m 0) as [ -> | Hnz ]; [ reflexivity | ].
      apply Z.log2_lt_pow2; lia. }
    unfold Float64.int_ge; cbn [Float64.mant Float64.expo].
    change (0 <=? -55) with false. cbv iota.
    change (2 ^ (- -55)) with 36028797018963968.
    change (2 ^ 53) with 9007199254740992 in Hsmall.
    change (2 ^ 50) with 1125899906842624 in Hn.
    unfold m in *.
    destruct (Z_le_gt_dec population (10 * tally)) as [ E | E ].
    + transitivity true; [ apply Z.leb_le; lia | symmetry; apply Z.leb_le; lia ].
    + transitivity false; [ apply Z.leb_gt; lia | symmetry; apply Z.leb_gt; lia ].
  - apply Z.leb_gt in Hs.
    set (s := Z.log2 m - 52) in *.
    assert (Hmpos : 0 < m).
    { destruct (Z.eq_dec m 0) as [ E | E ]; [ | lia ].
      unfold s in Hs. rewrite E in Hs. simpl in Hs. lia. }
    assert (Hs49 : s <= 49).
    { assert (Z.log2 m < 102) by (apply Z.log2_lt_pow2; lia). unfold s. lia. }
    destruct (Z.log2_spec m Hmpos) as [ Hlo Hhi ].
    replace (Z.log2 m) with (s + 52) in Hlo by (unfold s; lia).
    replace (Z.succ (Z.log2 m)) with (s + 53) in Hhi by (unfold s; lia).
    rewrite Z.pow_add_r in Hlo, Hhi by lia.
    set (P := 2 ^ s) in *.
    assert (HP : 0 < P) by (apply Z.pow_pos_nonneg; lia).
    assert (HP49 : P <= 2 ^ 49) by (apply Z.pow_le_mono_r; lia).
    assert (Hhalf : P = 2 * 2 ^ (s - 1)).
    { unfold P. replace s with (1 + (s - 1)) at 1 by lia.
      rewrite Z.pow_add_r by lia. reflexivity. }
    set (half := 2 ^ (s - 1)) in *.
    set (D := 2 ^ (55 - s)).
    assert (HPD : P * D = 2 ^ 55).
    { unfold P, D. rewrite <- Z.pow_add_r by lia. f_equal. lia. }
    pose proof (Z.div_mod m P ltac:(lia)) as Hdm.
    pose proof (Z.mod_pos_bound m P HP) as Hr.
    set (q := m / P) in *. set (r := m mod P) in *.
    pose proof (round53_bounds q r half) as Hq'. simpl in Hq'.
    set (q' := if (half <? r) || ((half =? r) && Z.odd q) then q + 1 else q) in *.
    destruct Hq' as [ Hq'b Hq'e ].
    rewrite Z.sgn_pos by lia. rewrite Z.mul_1_l.
    unfold Float64.int_ge; cbn [Float64.mant Float64.expo].
    assert (He : (0 <=? -55 + s) = false) by (apply Z.leb_gt; lia).
    rewrite He.
    replace (- (-55 + s)) with (55 - s) by lia. fold D.
    set (X := tally * D).
    assert (HPX : P * X = tally * 2 ^ 55).
    { unfold X. rewrite <- HPD. ring. }
    change (2 ^ 55) with 36028797018963968 in HPX.
    change (2 ^ 53) with 9007199254740992 in Hhi.
    change (2 ^ 52) with 4503599627370496 in Hlo.
    change (2 ^ 49) with 562949953421312 in HP49.
    change (2 ^ 50) with 1125899906842624 in Hn.
    assert (H10 : 10 * m = population * 36028797018963970) by (unfold m; lia).
    destruct (Z.compare_spec population (10 * tally)) as [ Heq | Hlt | Hgt ].
    + (* the population is ten times the tally: the product rounds to the tally *)
      assert (Hm2 : m = P * X + 2 * tally) by lia.
      assert (H4 : 4 * tally < P) by lia.
      assert (Hq : q = X).
      { symmetry. apply (Z.div_unique m P X (2 * tally)); lia. }
      assert (Hr2 : r = 2 * tally).
      { symmetry. apply (Z.mod_unique m P X (2 * tally)); lia. }
      rewrite Hq'e by lia.
      transitivity true; [ apply Z.leb_le; lia | symmetry; apply Z.leb_le; lia ].
    + assert (Hq : q < X).
      { apply Z.div_lt_upper_bound; lia. }
      transitivity true; [ apply Z.leb_le; lia | symmetry; apply Z.leb_le; lia ].
    + assert (Hq : X + 1 <= q).
      { apply Z.div_le_lower_bound; [ lia | ].
        destruct (Z_lt_le_dec tally 0) as [ Hneg | Hpos ]; [ | lia ].
        assert (P * X <= - 36028797018963968) by lia. lia. }
      transitivity false; [ apply Z.leb_gt; lia | symmetry; apply Z.leb_gt; lia ].
Qed.


(** ** The image archiver *)

Section ArchiverProperties.

Variable http_get : string -> Exn + Response.
Variable url_filename : string -> string.

Lemma attach_some m first rest filename r edit :
  attach m first rest filename r = Some edit ->
  status_code r = 200
  /\ Z.of_nat (List.length (content r)) < effective_limit (mm_filesize_limit m)
  /\ ae_file edit = content r
  /\ ae_embeds edit = set_image first ("attachment://" +++ filename) :: rest.
Proof.
  unfold attach.
  destruct (status_code r =? 200) eqn:Hs; simpl; [ | discriminate ].
  destruct (_ <? _) eqn:Hl; [ | discriminate ].
  intros H; injection H as <-; simpl.
  apply Z.eqb_eq in Hs. apply Z.ltb_lt in Hl. auto.
Qed.

Lemma attach_none_of_large m first rest filename r :
  effective_limit (mm_filesize_limit m) <= Z.of_nat (List.length (content r)) ->
  attach m first rest filename r = None.
Proof.
  intros H. unfold attach.
  destruct (_ <? _) eqn:Hl.
  - apply Z.ltb_lt in Hl. lia.
  - now rewrite andb_false_r.
Qed.

(** Once a response is there, the archiver answers what [attach] answers
    for it. *)
Lemma archive_image_received m first rest image r :
  mm_embeds m = first :: rest ->
  e_image first = Some image ->
  received http_get image r ->
  archive_image http_get url_filename m
  = inr (attach m first rest (url_filename (img_url image)) r).
Proof.
  intros Hembeds Himage [ Hurl Hget ].
  unfold archive_image. rewrite Hembeds, Himage, Hurl.
  now destruct Hget as [ -> | (e & proxy & -> & -> & -> & -> & ->) ].
Qed.

(** C7, amended.  The limit the archiver compares with is 25 MiB when the
    guild reports 8 MiB and the reported limit otherwise.  The archiver
    issues an edit that attaches the image only when the response it works
    with, the answer of the image URL or, after an [httpx.HTTPError], of the
    proxy URL, has status 200 and a payload strictly smaller than that
    limit, and the file is that payload.  Whenever the payload of the
    response it works with is at least as large as the limit, the archiver
    issues no edit: the mirror keeps its embeds, remote image URL included,
    and gets no attachment. *)
Theorem archive_image_size_gate (m : MirrorMessage) :
  effective_limit (8 * 1024 * 1024) = 25 * 1024 * 1024
  /\ (mm_filesize_limit m <> 8 * 1024 * 1024 ->
      effective_limit (mm_filesize_limit m) = mm_filesize_limit m)
  /\ (forall edit,
         archive_image http_get url_filename m = inr (Some edit) ->
         exists first rest image r,
           mm_embeds m = first :: rest
           /\ e_image first = Some image
           /\ received http_get image r
           /\ status_code r = 200
           /\ Z.of_nat (List.length (content r))
              < effective_limit (mm_filesize_limit m)
           /\ ae_file edit = content r)
  /\ (forall first rest image r,
         mm_embeds m = first :: rest ->
         e_image first = Some image ->
         received http_get image r ->
         effective_limit (mm_filesize_limit m)
         <= Z.of_nat (List.length (content r)) ->
         archive_image http_get url_filename m = inr None).
Proof.
  split; [ reflexivity | ].
  split.
  { intros H. unfold effective_limit.
    destruct (_ =? _) eqn:E; [ apply Z.eqb_eq in E; contradiction | reflexivity ]. }
  split.
  - intros edit. unfold archive_image.
    destruct (mm_embeds m) as [ | first rest ]; [ discriminate | ].
    destruct (e_image first) as [ image | ] eqn:Himage; [ | discriminate ].
    destruct (PyStr.truthy (img_url image)) eqn:Hurl; [ | discriminate ].
    destruct (http_get (img_url image)) as [ e | r ] eqn:Hget.
    + destruct (is_HTTPError e) eqn:He; [ | discriminate ].
      destruct (img_proxy_url image) as [ proxy | ] eqn:Hp; [ | discriminate ].
      destruct (PyStr.truthy proxy) eqn:Hpt; [ | discriminate ].
      destruct (http_get proxy) as [ e' | r ] eqn:Hproxy; [ discriminate | ].
      intros H; injection H as H. apply attach_some in H.
      exists first, rest, image, r.
      split; [ reflexivity | ]. split; [ exact Himage | ].
      split; [ | intuition ].
      split; [ exact Hurl | ]. right. exists e, proxy. auto.
    + intros H; injection H as H. apply attach_some in H.
      exists first, rest, image, r.
      split; [ reflexivity | ]. split; [ exact Himage | ].
      split; [ | intuition ].
      split; [ exact Hurl | ]. now left.
  - intros first rest image r Hembeds Himage Hreceived Hlarge.
    rewrite (archive_image_received m first rest image r) by assumption.
    now rewrite attach_none_of_large.
Qed.

(** X20.  The archiver's own edit keeps the number of embeds and every embed but
    the first, whose image becomes the attachment. *)
Lemma archive_image_keeps_embeds m edit :
  archive_image http_get url_filename m = inr (Some edit) ->
  List.length (ae_embeds edit) = List.length (mm_embeds m)
  /\ tl (ae_embeds edit) = tl (mm_embeds m).
Proof.
  unfold archive_image.
  destruct (mm_embeds m) as [ | first rest ]; [ discriminate | ].
  destruct (e_image first) as [ image | ]; [ | discriminate ].
  destruct (PyStr.truthy (img_url image)); [ | discriminate ].
  destruct (http_get (img_url image)) as [ e | r ].
  - destruct (is_HTTPError e); [ | discriminate ].
    destruct (img_proxy_url image) as [ proxy | ]; [ | discriminate ].
    destruct (PyStr.truthy proxy); [ | discriminate ].
    destruct (http_get proxy) as [ e' | r ]; [ discriminate | ].
    intros H; injection H as H. apply attach_some in H.
    destruct H as (_ & _ & _ & ->). split; reflexivity.
  - intros H; injection H as H. apply attach_some in H.
    destruct H as (_ & _ & _ & ->). split; reflexivity.
Qed.

End ArchiverProperties.

(** C7 as stated fails: for the smallest tier the limit compared with is
    not the reported 8 MiB quadrupled. *)
Lemma smallest_tier_limit_is_not_quadrupled :
  effective_limit (8 * 1024 * 1024) <> 4 * (8 * 1024 * 1024).
Proof. vm_compute. discriminate. Qed.

(** A host that serves three bytes to a guild whose limit is two. *)
Lemma archive_image_size_gate_witness :
  archive_image
    (fun _ => inr {| status_code := 200;
                     content := [Byte.x00; Byte.x01; Byte.x02] |})
    (fun url => url)
    {| mm_embeds :=
         [ {| e_type := "rich"; e_colour := None; e_timestamp := None;
              e_description := ""; e_author := None;
              e_image := Some {| img_url := "https://host/cat.png";
                                 img_proxy_url := None |};
              e_fields := [] |} ];
       mm_filesize_limit := 2 |}
  = inr None.
Proof.
  apply (proj2 (proj2 (proj2
           (archive_image_size_gate
              (fun _ => inr {| status_code := 200;
                               content := [Byte.x00; Byte.x01; Byte.x02] |})
              (fun url => url)
              {| mm_embeds :=
                   [ {| e_type := "rich"; e_colour := None;
                        e_timestamp := None; e_description := "";
                        e_author := None;
                        e_image := Some {| img_url := "https://host/cat.png";
                                           img_proxy_url := None |};
                        e_fields := [] |} ];
                 mm_filesize_limit := 2 |})))
         {| e_type := "rich"; e_colour := None; e_timestamp := None;
            e_description := ""; e_author := None;
            e_image := Some {| img_url := "https://host/cat.png";
                               img_proxy_url := None |};
            e_fields := [] |}
         []
         {| img_url := "https://host/cat.png"; img_proxy_url := None |}
         {| status_code := 200; content := [Byte.x00; Byte.x01; Byte.x02] |}).
  - reflexivity.
  - reflexivity.
  - split; [ reflexivity | left; reflexivity ].
  - discriminate.
Defined.

(** * The cog at work *)

(** ** Strings and floats *)

Example str_int_2024 : PyStr.str_int 2024 = "2024".
Proof. reflexivity. Qed.

Example format_comma_small : PyStr.format_comma 6 = "6".
Proof. reflexivity. Qed.

Example format_comma_large : PyStr.format_comma 1234567 = "1,234,567".
Proof. reflexivity. Qed.

Example contains_thread :
  PyStr.contains "thread" "public_thread" = true
  /\ PyStr.contains "thread" "text" = false.
Proof. split; reflexivity. Qed.

Example py_len_star : PyStr.py_len (star +++ "x6") = 3.
Proof. reflexivity. Qed.

(** [3 * 0.1] is [0.30000000000000004], that is [0x1.3333333333334p-2]. *)
Example three_tenths :
  times_tenth 3 = Float64.mk 5404319552844596 (-54).
Proof. reflexivity. Qed.

(** On the populations up to 2000 the products agree with the
    multiplication of the Standard Library's IEEE 754 model. *)
Example times_tenth_is_binary64 :
  forallb
    (fun n =>
       match SFcompare
               (Float64.to_spec (times_tenth n))
               (SFmul 53 1024 (binary_normalize 53 1024 n 0 false)
                      (S754_finite false 7205759403792794 (-56)))
       with
       | Some Eq => true
       | _ => false
       end)
    (map Z.of_nat (seq 0 2001))
  = true.
Proof. vm_compute. reflexivity. Qed.

(** ** The renderer *)

Example render_answer :
  fst (generate_starboard_embed Demo.format_dt Demo.shorten
         (Demo.env (Demo.source (Demo.crowd 20) 3 []) (inr Demo.mirror) (inr tt))
         (Demo.answer (Demo.crowd 20)) initial_state)
  = inr
      {| e_type := "rich"; e_colour := Some 15844367;
         e_timestamp := Some 1700000200; e_description := "hi alice";
         e_author :=
           Some {| ea_name := "bob";
                   ea_url := "https://discord.com/channels/77/5/3";
                   ea_icon_url := "https://cdn.example/avatars/12" |};
         e_image := None;
         e_fields :=
           [ {| f_name := "Info";
                f_value :=
                  "Star count: " +++ star +++ "x6" +++ nl +++
                  "Channel: <#5>" +++ nl +++
                  "Author: <@12>" +++ nl +++
                  "URL: [jump](https://discord.com/channels/77/5/3)" +++ nl +++
                  "Sent: <t:1700000200:R>" +++ nl +++
                  "Last edited: <t:1700000300:R>";
                f_inline := false |};
             {| f_name := "In reply to";
                f_value :=
                  "[Message by alice](https://discord.com/channels/77/5/1):"
                  +++ nl +++ ">>> hello";
                f_inline := false |};
             {| f_name := "Attachment #0";
                f_value := "[cat.png](https://cdn.example/cat.png)";
                f_inline := false |};
             {| f_name := "Attachment #1";
                f_value :=
                  "||[SPOILER_end.txt](https://cdn.example/SPOILER_end.txt)||";
                f_inline := false |} ] |}.
Proof. vm_compute. reflexivity. Qed.

(** ** Demotion *)

(** C1.  Message 1 has been mirrored as message 2, which is still in the
    starboard channel, and has lost its last star; its channel has twenty
    members, so the cap is 2.  The listener asks the starboard channel for
    the message with the id of the source message, which is not there, and
    deletes the row: no [DeleteMessage] is performed, and the mirror message
    stays in the starboard channel although its row is gone. *)
Theorem demotion_leaves_the_mirror_message :
  Objects.matching 1 (table Demo.mirrored)
  = [ {| sb_id := 1; sb_channel := 5; sb_starboard_message := Some 2 |} ]
  /\ star_tally (Demo.source (Demo.crowd 20) 0 []) = 0
  /\ fetch_message
       (Demo.env (Demo.source (Demo.crowd 20) 0 []) (inr Demo.mirror) (inr tt))
       9 2
     = inr Demo.mirror
  /\ on_star_add Demo.format_dt Demo.shorten
       (Demo.env (Demo.source (Demo.crowd 20) 0 []) (inr Demo.mirror) (inr tt))
       (Demo.star_event REACTION_REMOVE Demo.bob)
       Demo.mirrored
     = (inr tt, {| table := []; effects := [] |}).
Proof. vm_compute. repeat split; reflexivity. Qed.

(** C6.  A row that get-or-create has just created for a message whose
    tally is 0 is to be deleted without a post, at every cap.  At a cap of
    0 the listener does otherwise.  The channel of message 1 lists no
    member that is not a bot, so the cap is 0, and the message has lost its
    last star: the row that get-or-create has just created is kept and a
    mirror is posted for it, both when the synchronizer starts from an
    empty store and when the listener, having deleted the previous row of
    the message, goes on to get-or-create instead of returning. *)
Lemma zero_cap_posts_without_stars :
  threshold (Demo.env (Demo.source [] 0 []) (inr Demo.mirror) (inr tt))
            (Demo.source [] 0 [])
  = inr (times_tenth 0)
  /\ Float64.int_ge 0 (times_tenth 0) = true
  /\ (exists embeds,
         synchronize Demo.format_dt Demo.shorten
           (Demo.env (Demo.source [] 0 []) (inr Demo.mirror) (inr tt))
           (Demo.star_event REACTION_REMOVE Demo.bob)
           (Demo.source [] 0 []) 0 initial_state
         = (inr tt,
            {| table := [ {| sb_id := 1; sb_channel := 5;
                             sb_starboard_message := Some 50 |} ];
               effects := [Send 9 embeds 50; CreateTaskArchive 50] |}))
  /\ (exists embeds,
         on_star_add Demo.format_dt Demo.shorten
           (Demo.env (Demo.source [] 0 []) (inr Demo.mirror) (inr tt))
           (Demo.star_event REACTION_REMOVE Demo.bob)
           Demo.mirrored
         = (inr tt,
            {| table := [ {| sb_id := 1; sb_channel := 5;
                             sb_starboard_message := Some 50 |} ];
               effects := [Send 9 embeds 50; CreateTaskArchive 50] |})).
Proof.
  split; [ reflexivity | ].
  split; [ reflexivity | ].
  split; eexists; vm_compute; reflexivity.
Qed.

Lemma created_without_stars_is_deleted_witness :
  synchronize Demo.format_dt Demo.shorten
    (Demo.env (Demo.source (Demo.crowd 20) 0 []) (inr Demo.mirror) (inr tt))
    (Demo.star_event REACTION_REMOVE Demo.bob)
    (Demo.source (Demo.crowd 20) 0 []) 0 initial_state
  = (inr tt, initial_state).
Proof.
  apply (created_without_stars_is_deleted Demo.format_dt Demo.shorten
           (Demo.env (Demo.source (Demo.crowd 20) 0 []) (inr Demo.mirror) (inr tt))
           (Demo.star_event REACTION_REMOVE Demo.bob)
           (Demo.source (Demo.crowd 20) 0 [])
           (times_tenth 20) initial_state);
    reflexivity.
Defined.

(** ** The cap *)



(** ** The Mirror Store *)

Lemma mirror_store_at_most_one_witness :
  Objects.matching 1
    (table
       (run Demo.format_dt Demo.shorten
          ([] ++ [ (Demo.env (Demo.source (Demo.crowd 20) 1 [])
                             (inr Demo.mirror) (inr tt),
                    Demo.star_event REACTION_ADD Demo.bob);
                   (Demo.env (Demo.source (Demo.crowd 20) 1 [])
                             (inr Demo.mirror) (inr tt),
                    Demo.star_event REACTION_ADD Demo.bob) ])
          initial_state))
  = [].
Proof.
  destruct (mirror_store_at_most_one Demo.format_dt Demo.shorten []
              initial_state (fun id => Nat.le_0_l 1))
    as (_ & _ & _ & _ & H).
  exact (proj2 (H (Demo.env (Demo.source (Demo.crowd 20) 1 [])
                            (inr Demo.mirror) (inr tt))
                  (Demo.star_event REACTION_ADD Demo.bob)
                  (Demo.source (Demo.crowd 20) 1 [])
                  (times_tenth 20)
                  eq_refl eq_refl eq_refl eq_refl)).
Defined.

(** Ten stars in a channel of a hundred: the mirror is posted and the row
    holds its id; the ninth star had left the store empty. *)
Example tenth_star_posts :
  table (handle Demo.format_dt Demo.shorten initial_state
           (Demo.env (Demo.source (Demo.crowd 100) 9 [])
                     (inr Demo.mirror) (inr tt),
            Demo.star_event REACTION_ADD Demo.bob))
  = []
  /\ table (handle Demo.format_dt Demo.shorten initial_state
              (Demo.env (Demo.source (Demo.crowd 100) 10 [])
                        (inr Demo.mirror) (inr tt),
               Demo.star_event REACTION_ADD Demo.bob))
     = [ {| sb_id := 1; sb_channel := 5; sb_starboard_message := Some 50 |} ].
Proof. vm_compute. split; reflexivity. Qed.

(** A message with eleven rich embeds is mirrored with ten embeds. *)
Example eleven_embeds_are_cut :
  match effects
          (handle Demo.format_dt Demo.shorten initial_state
             (Demo.env (Demo.source (Demo.crowd 20) 7
                          (map Demo.link_embed [1; 2; 3; 4; 5; 6; 7; 8; 9; 10; 11]))
                       (inr Demo.mirror) (inr tt),
              Demo.star_event REACTION_ADD Demo.bob))
  with
  | [Send 9 embeds 50; CreateTaskArchive 50] =>
      List.length embeds = 10%nat
      /\ tl embeds = map Demo.link_embed [1; 2; 3; 4; 5; 6; 7; 8; 9]
  | _ => False
  end.
Proof. vm_compute. split; reflexivity. Qed.

(** ** Single events *)

Lemma self_star_rejected_witness :
  on_star_add Demo.format_dt Demo.shorten
    (Demo.env (Demo.source (Demo.crowd 20) 1 []) (inr Demo.mirror) (inr tt))
    (Demo.star_event REACTION_ADD Demo.alice)
    Demo.mirrored
  = (inr tt,
     {| table := table Demo.mirrored;
        effects :=
          [ RemoveReaction 1 star 11;
            Reply 1 (self_star_reply (Demo.source (Demo.crowd 20) 1 [])) ] |}).
Proof.
  exact (proj2 (self_star_rejected Demo.format_dt Demo.shorten
                  (Demo.env (Demo.source (Demo.crowd 20) 1 [])
                            (inr Demo.mirror) (inr tt))
                  (Demo.star_event REACTION_ADD Demo.alice)
                  (Demo.source (Demo.crowd 20) 1 [])
                  Demo.mirrored eq_refl eq_refl eq_refl)
               eq_refl eq_refl eq_refl eq_refl).
Defined.

Lemma unposted_record_stays_witness :
  handle Demo.format_dt Demo.shorten Demo.tracked
    (Demo.env (Demo.source (Demo.crowd 20) 3 []) (inr Demo.mirror) (inr tt),
     Demo.star_event REACTION_ADD Demo.bob)
  = Demo.tracked.
Proof.
  apply (unposted_record_stays Demo.format_dt Demo.shorten
           (Demo.env (Demo.source (Demo.crowd 20) 3 []) (inr Demo.mirror) (inr tt))
           (Demo.star_event REACTION_ADD Demo.bob)
           (Demo.source (Demo.crowd 20) 3 [])
           {| sb_id := 1; sb_channel := 5; sb_starboard_message := None |}
           Demo.tracked);
    try reflexivity.
  discriminate.
Defined.

(** C5 as stated fails.  Message 1 has three stars in a channel of twenty,
    so it qualifies, and its row names mirror message 2.  When the fetch of
    the mirror raises [Forbidden], nothing is posted and the row keeps the
    old mirror id; when the fetch succeeds and the edit raises, the
    exception ends the listener; and when the fetch raises [NotFound] and
    the send of the repost raises, that exception ends the listener. *)
Lemma transport_errors_are_not_all_reposted :
  threshold (Demo.env (Demo.source (Demo.crowd 20) 3 []) (inl Forbidden) (inr tt))
            (Demo.source (Demo.crowd 20) 3 [])
  = inr (times_tenth 20)
  /\ Float64.int_ge 3 (times_tenth 20) = true
  /\ on_star_add Demo.format_dt Demo.shorten
       (Demo.env (Demo.source (Demo.crowd 20) 3 []) (inl Forbidden) (inr tt))
       (Demo.star_event REACTION_ADD Demo.bob)
       Demo.mirrored
     = (inr tt, Demo.mirrored)
  /\ on_star_add Demo.format_dt Demo.shorten
       (Demo.env (Demo.source (Demo.crowd 20) 3 []) (inr Demo.mirror)
                 (inl HTTPException))
       (Demo.star_event REACTION_ADD Demo.bob)
       Demo.mirrored
     = (inl HTTPException, Demo.mirrored)
  /\ on_star_add Demo.format_dt Demo.shorten
       (Demo.world Demo.the_guild (Demo.source (Demo.crowd 20) 3 [])
                   (inl NotFound) (inl Forbidden) (inr tt))
       (Demo.star_event REACTION_ADD Demo.bob)
       Demo.mirrored
     = (inl Forbidden, Demo.mirrored).
Proof. vm_compute. repeat split; reflexivity. Qed.

Lemma missing_mirror_reposted_witness :
  exists embeds,
    on_star_add Demo.format_dt Demo.shorten
      (Demo.env (Demo.source (Demo.crowd 20) 3 []) (inl NotFound) (inr tt))
      (Demo.star_event REACTION_ADD Demo.bob)
      Demo.mirrored
    = (inr tt,
       {| table := [ {| sb_id := 1; sb_channel := 5;
                        sb_starboard_message := Some 50 |} ];
          effects := [Send 9 embeds 50; CreateTaskArchive 50] |}).
Proof.
  eexists.
  eapply (proj1 (missing_mirror_reposted Demo.format_dt Demo.shorten
                   (Demo.env (Demo.source (Demo.crowd 20) 3 [])
                             (inl NotFound) (inr tt))
                   (Demo.star_event REACTION_ADD Demo.bob)
                   (Demo.source (Demo.crowd 20) 3 [])
                   {| sb_id := 1; sb_channel := 5;
                      sb_starboard_message := Some 2 |}
                   2
                   {| tc_id := 9; tc_name := "starboard"; tc_can_send := true |}
                   _ Demo.mirrored
                   eq_refl eq_refl eq_refl eq_refl
                   ltac:(discriminate) eq_refl eq_refl ltac:(discriminate)
                   eq_refl eq_refl ltac:(vm_compute; reflexivity))
                eq_refl 50 eq_refl).
Defined.

(** ** The renderer *)

Lemma render_deterministic_witness :
  fst (generate_starboard_embed Demo.format_dt Demo.shorten
         (Demo.env (Demo.source (Demo.crowd 20) 3 []) (inr Demo.mirror) (inr tt))
         (Demo.answer (Demo.crowd 20)) Demo.mirrored)
  = fst (generate_starboard_embed Demo.format_dt Demo.shorten
           (Demo.env (Demo.source (Demo.crowd 20) 3 []) (inl Forbidden)
                     (inl HTTPException))
           (Demo.answer (Demo.crowd 20)) initial_state).
Proof.
  apply (render_deterministic Demo.format_dt Demo.shorten
           (Demo.env (Demo.source (Demo.crowd 20) 3 []) (inr Demo.mirror) (inr tt))
           (Demo.env (Demo.source (Demo.crowd 20) 3 []) (inl Forbidden)
                     (inl HTTPException))
           Demo.mirrored initial_state (Demo.answer (Demo.crowd 20))).
  - reflexivity.
  - intros reference H. injection H as <-. reflexivity.
Defined.

(** * Further properties *)

(** ** What the renderer builds *)

Section RenderedEmbed.

Variable format_dt : Z -> string.
Variable shorten : string -> Z -> Exn + string.

Lemma fold_attachment_error message files e :
  fold_left (render_attachment message) files (inl e) = inl e.
Proof. induction files as [ | file files IH ]; simpl; auto. Qed.

(** One turn of the loop over the attachments: it fails on an attachment
    that is no spoiler and has no content type, and otherwise appends one
    field and leaves the rest of the embed, its image included, as it is. *)
Lemma render_attachment_step message embed0 file :
  (render_attachment message (inr embed0) file = inl AttributeError
   /\ at_spoiler file = false /\ at_content_type file = None)
  \/ exists embed1 value,
       render_attachment message (inr embed0) file = inr embed1
       /\ (e_type embed1, e_colour embed1, e_timestamp embed1,
           e_description embed1, e_author embed1)
          = (e_type embed0, e_colour embed0, e_timestamp embed0,
             e_description embed0, e_author embed0)
       /\ e_fields embed1
          = e_fields embed0
            ++ [ {| f_name := attachment_name message file; f_value := value;
                    f_inline := false |} ]
       /\ e_image embed1 = e_image embed0.
Proof.
  unfold render_attachment, image_is_Empty, attachment_name.
  destruct (at_spoiler file).
  - right. do 2 eexists. split; [ reflexivity | ].
    cbn [add_field e_type e_colour e_timestamp e_description e_author
         e_fields e_image].
    repeat split.
  - destruct (at_content_type file) as [ ct | ]; [ | now left ].
    right. rewrite andb_false_r.
    do 2 eexists. split; [ reflexivity | ].
    cbn [add_field e_type e_colour e_timestamp e_description e_author
         e_fields e_image].
    repeat split.
Qed.

(** The loop over the attachments: the head of the embed and its image
    stay, and one field is appended per attachment. *)
Lemma fold_attachments message files :
  forall embed0 embed,
    fold_left (render_attachment message) files (inr embed0) = inr embed ->
    (e_type embed, e_colour embed, e_timestamp embed, e_description embed,
     e_author embed)
    = (e_type embed0, e_colour embed0, e_timestamp embed0,
       e_description embed0, e_author embed0)
    /\ (exists more,
           e_fields embed = e_fields embed0 ++ more
           /\ map f_name more = map (attachment_name message) files
           /\ Forall (fun f => f_inline f = false) more)
    /\ e_image embed = e_image embed0.
Proof.
  induction files as [ | file files IH ]; intros embed0 embed; cbn [fold_left].
  - intros H; injection H as <-. split; [ reflexivity | ]. split.
    + exists []. rewrite app_nil_r. repeat split. constructor.
    + reflexivity.
  - destruct (render_attachment_step message embed0 file)
      as [ (-> & _) | (embed1 & value & -> & Hhead1 & Hf1 & Hi1) ].
    { rewrite fold_attachment_error. discriminate. }
    intros H. apply IH in H. destruct H as (Hhead & (more & Hf & Hn & Hi) & Himg).
    split; [ now rewrite Hhead | ]. split.
    + eexists (_ :: more). rewrite Hf, Hf1, <- app_assoc.
      split; [ reflexivity | ]. cbn [map f_name]. rewrite Hn.
      split; [ reflexivity | ]. constructor; [ reflexivity | exact Hi ].
    + now rewrite Himg.
Qed.

(** The "In reply to" field is one field appended to the embed. *)
Lemma render_reply_shape embed0 ref embed :
  render_reply shorten embed0 ref = inr embed ->
  (e_type embed, e_colour embed, e_timestamp embed, e_description embed,
   e_author embed)
  = (e_type embed0, e_colour embed0, e_timestamp embed0,
     e_description embed0, e_author embed0)
  /\ e_image embed = e_image embed0
  /\ exists value,
       e_fields embed
       = e_fields embed0
         ++ [ {| f_name := "In reply to"; f_value := value; f_inline := false |} ].
Proof.
  unfold render_reply.
  destruct (negb (PyStr.truthy (msg_content ref))).
  - intros H; injection H as <-. simpl. repeat split. eauto.
  - destruct (shorten _ _) as [ e | short ]; [ discriminate | ].
    intros H; injection H as <-. simpl. repeat split. eauto.
Qed.

(** X1.  Every embed the renderer returns is a gold rich embed that carries the
    content, the creation time and the author of the message.  Its fields
    are the Info field, then one "In reply to" field when the message is a
    reply whose reference could be fetched, then one field per attachment,
    named by the position of the attachment; none is inline. *)
Theorem rendered_fields env message st embed :
  fst (generate_starboard_embed format_dt shorten env message st) = inr embed ->
  e_type embed = "rich"
  /\ e_colour embed = Some gold
  /\ e_timestamp embed = Some (msg_created_at message)
  /\ e_description embed = msg_content message
  /\ e_author embed
     = Some {| ea_name := u_display_name (msg_author message);
               ea_url := msg_jump_url message;
               ea_icon_url := u_avatar_url (msg_author message) |}
  /\ exists info replies files,
       e_fields embed
       = {| f_name := "Info"; f_value := info; f_inline := false |}
         :: replies ++ files
       /\ map f_name replies = repeat "In reply to" (reply_fields env message)
       /\ map f_name files
          = map (attachment_name message) (msg_attachments message)
       /\ Forall (fun f => f_inline f = false) (replies ++ files).
Proof.
  unfold generate_starboard_embed, reply_fields, bind, await, try_except, ret, raise.
  destruct (renderer_cap env message); cbn [fst snd]; [ discriminate | ].
  destruct (msg_reference message) as [ reference | ]; cbn [fst snd].
  - destruct (fetch_message env _ _) as [ e | ref ]; cbn [fst snd].
    + destruct (is_HTTPException e); cbn [fst snd]; [ | discriminate ].
      destruct (fold_left _ _ _) as [ e' | embed' ] eqn:Hfold; cbn [fst snd];
        [ discriminate | ].
      intros H; injection H as <-.
      apply fold_attachments in Hfold.
      destruct Hfold as (Hhead & (more & Hf & Hn & Hi) & _).
      cbn [add_field e_type e_colour e_timestamp e_description e_author
           e_fields app] in Hhead, Hf.
      injection Hhead as -> -> -> -> ->. repeat split.
      eexists _, [], more. rewrite Hf. cbn [app repeat map].
      repeat split; auto.
    + destruct (render_reply shorten _ ref) as [ e | embed1 ] eqn:Hreply;
        cbn [fst snd]; [ discriminate | ].
      destruct (fold_left _ _ _) as [ e' | embed' ] eqn:Hfold; cbn [fst snd];
        [ discriminate | ].
      intros H; injection H as <-.
      apply render_reply_shape in Hreply. destruct Hreply as (Hh1 & _ & (value & Hf1)).
      apply fold_attachments in Hfold.
      destruct Hfold as (Hhead & (more & Hf & Hn & Hi) & _).
      rewrite Hh1 in Hhead.
      cbn [add_field e_type e_colour e_timestamp e_description e_author
           e_fields app] in Hhead, Hf1.
      injection Hhead as -> -> -> -> ->. repeat split.
      eexists _, [ {| f_name := "In reply to"; f_value := value;
                      f_inline := false |} ], more.
      rewrite Hf, Hf1. cbn [app repeat map f_name].
      repeat split; auto.
  - destruct (fold_left _ _ _) as [ e' | embed' ] eqn:Hfold; cbn [fst snd];
      [ discriminate | ].
    intros H; injection H as <-.
    apply fold_attachments in Hfold.
    destruct Hfold as (Hhead & (more & Hf & Hn & Hi) & _).
    cbn [add_field e_type e_colour e_timestamp e_description e_author
         e_fields app] in Hhead, Hf.
    injection Hhead as -> -> -> -> ->. repeat split.
    eexists _, [], more. rewrite Hf. cbn [app repeat map].
    repeat split; auto.
Qed.

(** X2.  The renderer never gives the embed an image, whatever the
    attachments of the message: the test that guards [set_image] at line
    109 never holds, so an image attachment is rendered as a named link like
    every other attachment and the embed it is rendered into has no image
    for the archiver to work with. *)
Theorem rendered_embed_has_no_image env message st embed :
  fst (generate_starboard_embed format_dt shorten env message st) = inr embed ->
  e_image embed = None.
Proof.
  unfold generate_starboard_embed, bind, await, try_except, ret, raise.
  destruct (renderer_cap env message); cbn [fst snd]; [ discriminate | ].
  destruct (msg_reference message) as [ reference | ]; cbn [fst snd].
  - destruct (fetch_message env _ _) as [ e | ref ]; cbn [fst snd].
    + destruct (is_HTTPException e); cbn [fst snd]; [ | discriminate ].
      destruct (fold_left _ _ _) as [ e' | embed' ] eqn:Hfold; cbn [fst snd];
        [ discriminate | ].
      intros H; injection H as <-.
      apply fold_attachments in Hfold. destruct Hfold as (_ & _ & ->).
      reflexivity.
    + destruct (render_reply shorten _ ref) as [ e | embed1 ] eqn:Hreply;
        cbn [fst snd]; [ discriminate | ].
      destruct (fold_left _ _ _) as [ e' | embed' ] eqn:Hfold; cbn [fst snd];
        [ discriminate | ].
      intros H; injection H as <-.
      apply render_reply_shape in Hreply. destruct Hreply as (_ & Hi1 & _).
      apply fold_attachments in Hfold. destruct Hfold as (_ & _ & ->).
      rewrite Hi1. reflexivity.
  - destruct (fold_left _ _ _) as [ e' | embed' ] eqn:Hfold; cbn [fst snd];
      [ discriminate | ].
    intros H; injection H as <-.
    apply fold_attachments in Hfold. destruct Hfold as (_ & _ & ->).
    reflexivity.
Qed.

(** X3.  A reference that cannot be fetched because of an HTTP error is left
    out without a trace: the renderer answers what it answers for the same
    message without the reference. *)
Theorem unfetchable_reference_is_omitted env message reference e st :
  msg_reference message = Some reference ->
  fetch_message env (ref_channel_id reference) (ref_message_id reference)
  = inl e ->
  is_HTTPException e = true ->
  fst (generate_starboard_embed format_dt shorten env message st)
  = fst (generate_starboard_embed format_dt shorten env
           (without_reference message) st).
Proof.
  intros Href Hfetch Hhttp.
  unfold generate_starboard_embed, renderer_cap, star_tally,
    bind, await, try_except, ret, raise.
  rewrite Href. simpl. rewrite Hfetch. simpl. rewrite Hhttp.
  destruct (if PyStr.contains _ _ then _ else _); simpl; [ reflexivity | ].
  unfold render_attachment, attachment_name. simpl.
  destruct (fold_left _ _ _); reflexivity.
Qed.

(** An attachment that is no spoiler and has no content type ends the
    loop over the attachments with an [AttributeError]. *)
Lemma fold_attachments_untyped message file files :
  In file files ->
  at_spoiler file = false ->
  at_content_type file = None ->
  forall embed0,
    fold_left (render_attachment message) files (inr embed0)
    = inl AttributeError.
Proof.
  intros Hin Hs Hc.
  induction files as [ | file' files IH ]; [ contradiction | ].
  intros embed0. cbn [fold_left].
  destruct (render_attachment_step message embed0 file')
    as [ (-> & _) | (embed1 & value & Hstep & _) ].
  - apply fold_attachment_error.
  - rewrite Hstep. destruct Hin as [ -> | Hin ]; [ | now apply IH ].
    unfold render_attachment in Hstep. rewrite Hs, Hc in Hstep. discriminate.
Qed.

(** X4.  What ends the renderer with an exception.  A channel that is no
    thread in a guild without a member count gives a [TypeError] before
    anything is built; an exception of the fetch of the reference that is no
    HTTP error is passed on; and an attachment that is no spoiler and has no
    content type gives an [AttributeError]. *)
Theorem renderer_failures env message st :
  (PyStr.contains "thread" (ch_type_name (msg_channel message)) = false ->
   g_member_count (guild env) = None ->
   fst (generate_starboard_embed format_dt shorten env message st)
   = inl TypeError)
  /\ (forall cap reference e,
         renderer_cap env message = inr cap ->
         msg_reference message = Some reference ->
         fetch_message env (ref_channel_id reference)
                       (ref_message_id reference) = inl e ->
         is_HTTPException e = false ->
         fst (generate_starboard_embed format_dt shorten env message st)
         = inl e)
  /\ (forall cap file,
         renderer_cap env message = inr cap ->
         msg_reference message = None ->
         In file (msg_attachments message) ->
         at_spoiler file = false ->
         at_content_type file = None ->
         fst (generate_starboard_embed format_dt shorten env message st)
         = inl AttributeError).
Proof.
  split; [ | split ].
  - intros Hthread Hcount.
    unfold generate_starboard_embed, renderer_cap, bind, await, raise.
    now rewrite Hthread, Hcount.
  - intros cap reference e Hcap Href Hfetch Hhttp.
    unfold generate_starboard_embed, bind, await, try_except, ret, raise.
    rewrite Hcap. cbn [fst snd]. rewrite Href, Hfetch. cbn [fst snd].
    now rewrite Hhttp.
  - intros cap file Hcap Href Hin Hs Hc.
    unfold generate_starboard_embed, bind, await, try_except, ret, raise.
    rewrite Hcap. cbn [fst snd]. rewrite Href. cbn [fst snd].
    now rewrite (fold_attachments_untyped message file _ Hin Hs Hc).
Qed.

End RenderedEmbed.

(** ** What the listener does with an event *)

Section ListenerBehaviour.

Variable format_dt : Z -> string.
Variable shorten : string -> Z -> Exn + string.

(** An event the listener neither ignores nor rejects goes on to the
    tally. *)
Lemma on_star_add_curate env payload message st :
  truthy_id (p_guild_id payload) = true ->
  p_emoji payload = star ->
  fetch_message env (p_channel_id payload) (p_message_id payload) = inr message ->
  ((u_id (msg_author message) =? p_user_id payload)
   && is_add (p_event_type payload)) = false ->
  on_star_add format_dt shorten env payload st
  = curate format_dt shorten env payload message st.
Proof.
  intros Hguild Hemoji Hfetch Hnotself.
  unfold on_star_add. rewrite Hguild, Hemoji, String.eqb_refl. cbn [negb].
  unfold bind at 1. rewrite Hfetch. cbn [await ret]. now rewrite Hnotself.
Qed.

(** Updating the rows of an id that has none changes nothing. *)
Lemma update_other_rows id m rows :
  Objects.matching id rows = [] ->
  map (fun r => if sb_id r =? id
                then {| sb_id := sb_id r; sb_channel := sb_channel r;
                        sb_starboard_message := Some m |}
                else r) rows
  = rows.
Proof.
  induction rows as [ | r rows IH ]; cbn [map Objects.matching filter];
    [ reflexivity | ].
  destruct (sb_id r =? id); [ discriminate | ].
  intros H. now rewrite IH.
Qed.

(** Lines 155 to 176 when the message has no row: the row is created, and
    the cap decides. *)
Lemma synchronize_created env payload message star_count st :
  Objects.matching (p_message_id payload) (table st) = [] ->
  synchronize format_dt shorten env payload message star_count st
  = (cap <- await (threshold env message) ;;
     if Float64.int_ge star_count cap
     then
       match starboard_channel (guild env) with
       | Some channel =>
           if tc_can_send channel
           then
             embed <- generate_starboard_embed format_dt shorten env message ;;
             post env channel
                  {| sb_id := p_message_id payload;
                     sb_channel := p_channel_id payload;
                     sb_starboard_message := None |}
                  (assemble_embeds embed message)
           else ret tt
       | None => ret tt
       end
     else Objects.delete {| sb_id := p_message_id payload;
                            sb_channel := p_channel_id payload;
                            sb_starboard_message := None |})
      {| table := table st ++ [ {| sb_id := p_message_id payload;
                                   sb_channel := p_channel_id payload;
                                   sb_starboard_message := None |} ];
         effects := effects st |}.
Proof.
  intros Hnone. unfold synchronize.
  unfold bind at 1. now rewrite (get_or_create_missing _ _ _ Hnone).
Qed.

(** Deleting the row that was just appended gives the table back. *)
Lemma delete_created id channel st :
  Objects.matching id (table st) = [] ->
  Objects.delete {| sb_id := id; sb_channel := channel;
                    sb_starboard_message := None |}
    {| table := table st ++ [ {| sb_id := id; sb_channel := channel;
                                 sb_starboard_message := None |} ];
       effects := effects st |}
  = (inr tt, st).
Proof.
  intros Hnone. unfold Objects.delete. cbn [table effects sb_id].
  rewrite filter_app. cbn [filter sb_id]. rewrite Z.eqb_refl. cbn [negb].
  rewrite app_nil_r, (filter_other_id _ _ Hnone). now destruct st.
Qed.

(** X6.  The first event on a message whose tally reaches the cap: the row is
    created, the embeds are sent to the starboard channel, the row gets the
    id of the new message and the archiver is scheduled. *)
Theorem qualifying_star_posts env payload message cap channel embed new_id st :
  truthy_id (p_guild_id payload) = true ->
  p_emoji payload = star ->
  fetch_message env (p_channel_id payload) (p_message_id payload) = inr message ->
  ((u_id (msg_author message) =? p_user_id payload)
   && is_add (p_event_type payload)) = false ->
  star_tally message <> 0 ->
  Objects.matching (p_message_id payload) (table st) = [] ->
  threshold env message = inr cap ->
  Float64.int_ge (star_tally message) cap = true ->
  starboard_channel (guild env) = Some channel ->
  tc_can_send channel = true ->
  fst (generate_starboard_embed format_dt shorten env message initial_state)
  = inr embed ->
  send env (tc_id channel) (assemble_embeds embed message) = inr new_id ->
  on_star_add format_dt shorten env payload st
  = (inr tt,
     {| table := table st ++ [ {| sb_id := p_message_id payload;
                                  sb_channel := p_channel_id payload;
                                  sb_starboard_message := Some new_id |} ];
        effects :=
          effects st
          ++ [ Send (tc_id channel) (assemble_embeds embed message) new_id;
               CreateTaskArchive new_id ] |}).
Proof.
  intros Hguild Hemoji Hfetch Hnotself Htally Hnone Hcap Hge Hchan Hsend
         Hembed Hnew.
  rewrite (on_star_add_synchronize format_dt shorten env payload message st)
    by assumption.
  rewrite synchronize_created by assumption.
  unfold bind at 1. rewrite Hcap. cbn [await ret]. rewrite Hge, Hchan, Hsend.
  unfold bind at 1. rewrite generate_starboard_embed_pure, Hembed.
  unfold post, bind, await, perform, Objects.update, ret. rewrite Hnew.
  cbn [table effects sb_id]. rewrite map_app. cbn [map sb_id sb_channel].
  rewrite Z.eqb_refl, (update_other_rows _ _ _ Hnone), <- app_assoc.
  reflexivity.
Qed.

(** X7.  What leaves a row without a mirror behind.  The message has no row and
    its tally is not 0.  When the tally reaches the cap but the guild has no
    channel named starboard, or the bot cannot send there, the listener
    returns with the new row in the store and nothing posted; when the send
    raises, or when the cap cannot be computed, the exception ends the
    listener after the row was created. *)
Theorem unposted_row_left_behind env payload message st :
  truthy_id (p_guild_id payload) = true ->
  p_emoji payload = star ->
  fetch_message env (p_channel_id payload) (p_message_id payload) = inr message ->
  ((u_id (msg_author message) =? p_user_id payload)
   && is_add (p_event_type payload)) = false ->
  star_tally message <> 0 ->
  Objects.matching (p_message_id payload) (table st) = [] ->
  let tracked :=
    {| table := table st ++ [ {| sb_id := p_message_id payload;
                                 sb_channel := p_channel_id payload;
                                 sb_starboard_message := None |} ];
       effects := effects st |} in
  (forall cap,
      threshold env message = inr cap ->
      Float64.int_ge (star_tally message) cap = true ->
      match starboard_channel (guild env) with
      | Some channel => tc_can_send channel = false
      | None => True
      end ->
      on_star_add format_dt shorten env payload st = (inr tt, tracked))
  /\ (forall cap channel embed e,
         threshold env message = inr cap ->
         Float64.int_ge (star_tally message) cap = true ->
         starboard_channel (guild env) = Some channel ->
         tc_can_send channel = true ->
         fst (generate_starboard_embed format_dt shorten env message
                                       initial_state) = inr embed ->
         send env (tc_id channel) (assemble_embeds embed message) = inl e ->
         on_star_add format_dt shorten env payload st = (inl e, tracked))
  /\ (forall e,
         threshold env message = inl e ->
         on_star_add format_dt shorten env payload st = (inl e, tracked)).
Proof.
  intros Hguild Hemoji Hfetch Hnotself Htally Hnone tracked.
  rewrite (on_star_add_synchronize format_dt shorten env payload message st)
    by assumption.
  rewrite synchronize_created by assumption.
  fold tracked.
  split; [ | split ].
  - intros cap Hcap Hge Hchan.
    unfold bind at 1. rewrite Hcap. cbn [await ret]. rewrite Hge.
    destruct (starboard_channel (guild env)) as [ channel | ];
      [ now rewrite Hchan | reflexivity ].
  - intros cap channel embed e Hcap Hge Hchan Hsend Hembed Hfail.
    unfold bind at 1. rewrite Hcap. cbn [await ret]. rewrite Hge, Hchan, Hsend.
    unfold bind at 1. rewrite generate_starboard_embed_pure, Hembed.
    unfold post, bind, await, raise. now rewrite Hfail.
  - intros e Hcap. unfold bind at 1. now rewrite Hcap.
Qed.

(** Below the cap nothing is kept: the row the listener creates for a
    message without one is deleted again, and the state is as before. *)
Lemma synchronize_created_below env payload message star_count cap st :
  Objects.matching (p_message_id payload) (table st) = [] ->
  threshold env message = inr cap ->
  Float64.int_ge star_count cap = false ->
  synchronize format_dt shorten env payload message star_count st = (inr tt, st).
Proof.
  intros Hnone Hcap Hbelow.
  rewrite synchronize_created by assumption.
  unfold bind at 1. rewrite Hcap. cbn [await ret]. rewrite Hbelow.
  now apply delete_created.
Qed.

(** The demotion when the starboard channel does not yield a message under
    the id of the source message: the rows of the message go, and the
    listener goes on with the message it had. *)
Lemma demote_swallowed env payload message entry st :
  Objects.matching (p_message_id payload) (table st) = [entry] ->
  (forall channel,
      starboard_channel (guild env) = Some channel ->
      exists e,
        fetch_message env (tc_id channel) (p_message_id payload) = inl e
        /\ is_HTTPException e = true) ->
  demote env payload message st
  = (inr (Some message),
     {| table := elsewhere (p_message_id payload) (table st);
        effects := effects st |}).
Proof.
  intros Hrow Hgone.
  assert (Hid : sb_id entry = p_message_id payload).
  { apply (matching_id _ (table st)). rewrite Hrow. now left. }
  unfold demote, bind at 1, try_except, bind at 1.
  rewrite (get_found _ _ _ Hrow). cbn [ret].
  destruct (starboard_channel (guild env)) as [ channel | ].
  - destruct (Hgone channel eq_refl) as (e & Hfetch & Hhttp).
    unfold bind, try_finally, try_except, await, perform, Objects.delete, ret, raise.
    rewrite Hid, Hfetch. cbn [fst snd]. rewrite Hhttp. reflexivity.
  - unfold bind, Objects.delete, ret. now rewrite Hid.
Qed.

(** X8.  A message that has lost its last star loses its row.  The message has
    a row, its tally is 0, and the starboard channel, if there is one, has
    no message under the id of the source message.  With a cap above 0 the
    listener returns normally, the rows of the message are gone, the rows of
    the other messages are as they were, and no effect was performed. *)
Theorem starless_message_loses_its_row env payload message entry cap st :
  truthy_id (p_guild_id payload) = true ->
  p_emoji payload = star ->
  fetch_message env (p_channel_id payload) (p_message_id payload) = inr message ->
  ((u_id (msg_author message) =? p_user_id payload)
   && is_add (p_event_type payload)) = false ->
  star_tally message = 0 ->
  Objects.matching (p_message_id payload) (table st) = [entry] ->
  (forall channel,
      starboard_channel (guild env) = Some channel ->
      exists e,
        fetch_message env (tc_id channel) (p_message_id payload) = inl e
        /\ is_HTTPException e = true) ->
  threshold env message = inr cap ->
  0 < Float64.mant cap ->
  on_star_add format_dt shorten env payload st
  = (inr tt,
     {| table := elsewhere (p_message_id payload) (table st);
        effects := effects st |})
  /\ Objects.matching (p_message_id payload)
                      (elsewhere (p_message_id payload) (table st)) = [].
Proof.
  intros Hguild Hemoji Hfetch Hnotself Htally Hrow Hgone Hcap Hpos.
  assert (Hclean : Objects.matching (p_message_id payload)
                     (elsewhere (p_message_id payload) (table st)) = []).
  { unfold elsewhere. rewrite matching_after_delete. now rewrite Z.eqb_refl. }
  split; [ | exact Hclean ].
  rewrite on_star_add_curate with (message := message) by assumption.
  unfold curate. cbv zeta. rewrite Htally. cbn [Z.eqb].
  unfold bind at 1.
  rewrite (demote_swallowed env payload message entry st Hrow Hgone).
  apply (synchronize_created_below env payload message 0 cap); auto.
  rewrite int_ge_zero. now apply Z.leb_gt.
Qed.

(** X9.  An existing mirror is edited whatever the cap.  The message has a row
    with a mirror id, its tally is not 0, and the mirror message can be
    fetched from the starboard channel.  When the edit succeeds the store
    is unchanged and the effects are the edit and the scheduling of the
    archiver; when the edit raises, the exception ends the listener and
    nothing has changed. *)
Theorem existing_mirror_is_edited env payload message entry mirror channel
        embed fetched st :
  truthy_id (p_guild_id payload) = true ->
  p_emoji payload = star ->
  fetch_message env (p_channel_id payload) (p_message_id payload) = inr message ->
  ((u_id (msg_author message) =? p_user_id payload)
   && is_add (p_event_type payload)) = false ->
  star_tally message <> 0 ->
  Objects.matching (p_message_id payload) (table st) = [entry] ->
  sb_starboard_message entry = Some mirror ->
  mirror <> 0 ->
  starboard_channel (guild env) = Some channel ->
  tc_can_send channel = true ->
  fst (generate_starboard_embed format_dt shorten env message initial_state)
  = inr embed ->
  fetch_message env (tc_id channel) mirror = inr fetched ->
  (edit env (tc_id channel) mirror (assemble_embeds embed message) = inr tt ->
   on_star_add format_dt shorten env payload st
   = (inr tt,
      {| table := table st;
         effects :=
           effects st
           ++ [ Edit (tc_id channel) mirror (assemble_embeds embed message);
                CreateTaskArchive mirror ] |}))
  /\ (forall e,
         edit env (tc_id channel) mirror (assemble_embeds embed message)
         = inl e ->
         on_star_add format_dt shorten env payload st = (inl e, st)).
Proof.
  intros Hguild Hemoji Hfetch Hnotself Htally Hrow Hmirror Hnz Hchan Hsend
         Hembed Hthere.
  rewrite (on_star_add_synchronize format_dt shorten env payload message st)
    by assumption.
  rewrite (synchronize_existing format_dt shorten env payload message _ entry
             mirror channel embed) by assumption.
  rewrite Hthere.
  split.
  - intros Hedit. unfold bind, await, perform, ret. rewrite Hedit.
    cbn [table effects]. now rewrite <- app_assoc.
  - intros e Hedit. unfold bind, await, raise. now rewrite Hedit.
Qed.

End ListenerBehaviour.

(** ** The rows of the other messages *)

Section Frame.

Variable format_dt : Z -> string.
Variable shorten : string -> Z -> Exn + string.
Variable env : Env.
Variable payload : Payload.
Variable rows : list StarBoardMessage.

Lemma elsewhere_app id l l' :
  elsewhere id (l ++ l') = elsewhere id l ++ elsewhere id l'.
Proof. apply filter_app. Qed.

Lemma elsewhere_idempotent id l : elsewhere id (elsewhere id l) = elsewhere id l.
Proof.
  unfold elsewhere. induction l as [ | r l IH ]; cbn [filter]; [ reflexivity | ].
  destruct (negb (sb_id r =? id)) eqn:E; cbn [filter]; rewrite ?E, IH; reflexivity.
Qed.

Lemma elsewhere_update id m l :
  elsewhere id
    (map (fun r => if sb_id r =? id
                   then {| sb_id := sb_id r; sb_channel := sb_channel r;
                           sb_starboard_message := Some m |}
                   else r) l)
  = elsewhere id l.
Proof.
  unfold elsewhere. induction l as [ | r l IH ]; cbn [map filter]; [ reflexivity | ].
  destruct (sb_id r =? id) eqn:E; cbn [sb_id]; rewrite E; cbn [negb];
    now rewrite IH.
Qed.

(** The row that get-or-create returns is a row of the id asked for. *)
Lemma get_or_create_id channel id st entry created :
  fst (Objects.get_or_create channel id st) = inr (entry, created) ->
  sb_id entry = id.
Proof.
  destruct (Objects.matching id (table st)) as [ | r [ | r' l ] ] eqn:E.
  - rewrite (get_or_create_missing _ _ _ E). cbn [fst].
    intros H; injection H as <- _. reflexivity.
  - rewrite (get_or_create_found _ _ _ _ E). cbn [fst].
    intros H; injection H as <- _.
    apply (matching_id _ (table st)). rewrite E. now left.
  - unfold Objects.get_or_create, try_except, bind, Objects.get. rewrite E.
    discriminate.
Qed.

Lemma get_id id st entry :
  fst (Objects.get id st) = inr entry -> sb_id entry = id.
Proof.
  unfold Objects.get.
  destruct (Objects.matching id (table st)) as [ | r [ | r' l ] ] eqn:E;
    cbn [fst]; try discriminate.
  intros H; injection H as <-.
  apply (matching_id _ (table st)). rewrite E. now left.
Qed.

Lemma others_get_or_create channel :
  preserves (others_are payload rows) (Objects.get_or_create channel (p_message_id payload)).
Proof.
  intros st H. unfold others_are in *.
  destruct (Objects.matching (p_message_id payload) (table st))
    as [ | r [ | r' l ] ] eqn:E.
  - rewrite (get_or_create_missing _ _ _ E). cbn [snd table].
    rewrite elsewhere_app. unfold elsewhere at 2. cbn [filter sb_id].
    rewrite Z.eqb_refl. cbn [negb]. now rewrite app_nil_r.
  - now rewrite (get_or_create_found _ _ _ _ E).
  - unfold Objects.get_or_create, try_except, bind, Objects.get. now rewrite E.
Qed.

Lemma others_delete entry :
  sb_id entry = p_message_id payload ->
  preserves (others_are payload rows) (Objects.delete entry).
Proof.
  intros Hid st H. unfold others_are in *. cbn [Objects.delete snd table].
  rewrite Hid. fold (elsewhere (p_message_id payload) (table st)).
  now rewrite elsewhere_idempotent.
Qed.

Lemma others_update entry m :
  sb_id entry = p_message_id payload ->
  preserves (others_are payload rows) (Objects.update entry m).
Proof.
  intros Hid st H. unfold others_are in *. cbn [Objects.update snd table].
  now rewrite Hid, elsewhere_update.
Qed.

Lemma others_perform a : preserves (others_are payload rows) (perform a).
Proof. intros st H. exact H. Qed.

Lemma others_generate A message (k : Embed -> M A) :
  (forall embed, preserves (others_are payload rows) (k embed)) ->
  preserves (others_are payload rows)
    (bind (generate_starboard_embed format_dt shorten env message) k).
Proof.
  intros Hk st H. unfold bind. rewrite generate_starboard_embed_pure.
  destruct (fst _) as [ e | embed ]; [ exact H | now apply Hk ].
Qed.

Lemma others_post channel entry embeds :
  sb_id entry = p_message_id payload ->
  preserves (others_are payload rows) (post env channel entry embeds).
Proof.
  intros Hid. unfold post.
  apply preserves_bind; [ apply preserves_await | intros msg ].
  apply preserves_bind; [ apply others_perform | intros _ ].
  apply preserves_bind; [ now apply others_update | intros _ ].
  apply others_perform.
Qed.

Lemma others_demote message : preserves (others_are payload rows) (demote env payload message).
Proof.
  unfold demote.
  apply preserves_bind_result.
  { apply preserves_try_except; [ | apply preserves_ret ].
    apply preserves_bind; [ apply preserves_get | intros; apply preserves_ret ]. }
  intros [ database | ] st Hget; [ | apply preserves_ret ].
  assert (Hid : sb_id database = p_message_id payload).
  { revert Hget. unfold try_except, bind.
    destruct (Objects.get (p_message_id payload) st) as [ [ e | r ] st' ] eqn:E.
    - destruct (is_NoMatch e); discriminate.
    - cbn [fst ret]. intros H; injection H as <-.
      apply (get_id _ st). now rewrite E. }
  destruct (starboard_channel (guild env)) as [ channel | ].
  - apply preserves_bind; [ | intros; apply preserves_ret ].
    apply preserves_try_finally; [ | now apply others_delete ].
    apply preserves_try_except; [ | apply preserves_ret ].
    apply preserves_bind; [ apply preserves_await | intros fetched ].
    apply preserves_bind; [ apply others_perform | intros; apply preserves_ret ].
  - apply preserves_bind; [ now apply others_delete | intros; apply preserves_ret ].
Qed.

Lemma others_synchronize message star_count :
  preserves (others_are payload rows)
    (synchronize format_dt shorten env payload message star_count).
Proof.
  unfold synchronize.
  apply preserves_bind_result; [ apply others_get_or_create | ].
  intros [ entry created ] st Hget.
  apply get_or_create_id in Hget.
  destruct created.
  - apply preserves_bind; [ apply preserves_await | intros cap ].
    destruct (Float64.int_ge star_count cap); [ | now apply others_delete ].
    destruct (starboard_channel (guild env)) as [ channel | ];
      [ | apply preserves_ret ].
    destruct (tc_can_send channel); [ | apply preserves_ret ].
    apply others_generate. intros embed. now apply others_post.
  - cbv zeta. apply others_generate. intros embed.
    destruct (starboard_channel (guild env)) as [ channel | ];
      [ | apply preserves_ret ].
    destruct (sb_starboard_message entry) as [ mirror | ];
      [ | apply preserves_ret ].
    destruct (tc_can_send channel && negb (mirror =? 0));
      [ | apply preserves_ret ].
    apply preserves_bind.
    { apply preserves_try_except; [ | apply preserves_ret ].
      apply preserves_try_except; [ | apply preserves_ret ].
      apply preserves_bind; [ apply preserves_await | intros; apply preserves_ret ]. }
    intros [ | | ].
    + apply preserves_bind; [ apply preserves_await | intros _ ].
      apply preserves_bind; apply others_perform || (intros; apply others_perform).
    + now apply others_post.
    + apply preserves_ret.
Qed.

Lemma others_on_star_add :
  preserves (others_are payload rows) (on_star_add format_dt shorten env payload).
Proof.
  unfold on_star_add.
  destruct (negb (truthy_id (p_guild_id payload))); [ apply preserves_ret | ].
  destruct (negb (p_emoji payload =? star)%string); [ apply preserves_ret | ].
  apply preserves_bind; [ apply preserves_await | intros message ].
  destruct (_ && _).
  - unfold reject_self_star.
    apply preserves_bind.
    + destruct (ch_manage_messages (msg_channel message));
        [ | apply preserves_ret ].
      apply preserves_bind; [ apply preserves_await | intros _ ].
      apply others_perform.
    + intros _.
      apply preserves_bind; [ apply preserves_await | intros _ ].
      apply others_perform.
  - unfold curate. cbv zeta.
    apply preserves_bind.
    + destruct (star_tally message =? 0);
        [ apply others_demote | apply preserves_ret ].
    + intros [ message' | ]; [ apply others_synchronize | apply preserves_ret ].
Qed.

End Frame.

Section FrameTheorem.

Variable format_dt : Z -> string.
Variable shorten : string -> Z -> Exn + string.

(** X11.  An event only touches the rows of its own message: whatever the
    transport answers and however the listener ends, the rows of every other
    message are the same rows, in the same order, before and after. *)
Theorem other_rows_are_untouched env payload st :
  elsewhere (p_message_id payload)
            (table (handle format_dt shorten st (env, payload)))
  = elsewhere (p_message_id payload) (table st).
Proof.
  apply (others_on_star_add format_dt shorten env payload
           (elsewhere (p_message_id payload) (table st)) st).
  reflexivity.
Qed.

(** X12.  Events that the listener ignores, and a message that cannot be
    fetched.  A reaction outside a guild and a reaction with another emoji
    change nothing and raise nothing, whatever the transport would answer;
    when the fetch of the message raises, the exception ends the listener
    and nothing has changed. *)
Theorem ignored_events env payload st :
  (truthy_id (p_guild_id payload) = false \/ p_emoji payload <> star ->
   on_star_add format_dt shorten env payload st = (inr tt, st))
  /\ (forall e,
         truthy_id (p_guild_id payload) = true ->
         p_emoji payload = star ->
         fetch_message env (p_channel_id payload) (p_message_id payload)
         = inl e ->
         on_star_add format_dt shorten env payload st = (inl e, st)).
Proof.
  split.
  - intros [ Hguild | Hemoji ]; unfold on_star_add.
    + now rewrite Hguild.
    + destruct (negb (truthy_id (p_guild_id payload))); [ reflexivity | ].
      apply String.eqb_neq in Hemoji. now rewrite Hemoji.
  - intros e Hguild Hemoji Hfetch. unfold on_star_add.
    rewrite Hguild, Hemoji, String.eqb_refl. cbn [negb].
    unfold bind, await, raise. now rewrite Hfetch.
Qed.

(** X13.  A self-star whose reaction cannot be removed.  The author added the
    star, the bot may manage messages, and the removal of the reaction
    raises: the exception ends the listener before the reply, and nothing
    has changed.  The same event removed instead of added is not rejected:
    it goes on to the tally like any other. *)
Theorem self_star_removal_failure env payload message st :
  truthy_id (p_guild_id payload) = true ->
  p_emoji payload = star ->
  fetch_message env (p_channel_id payload) (p_message_id payload) = inr message ->
  u_id (msg_author message) = p_user_id payload ->
  (forall e,
      p_event_type payload = REACTION_ADD ->
      ch_manage_messages (msg_channel message) = true ->
      remove_reaction env (msg_id message) star (u_id (msg_author message))
      = inl e ->
      on_star_add format_dt shorten env payload st = (inl e, st))
  /\ (p_event_type payload = REACTION_REMOVE ->
      on_star_add format_dt shorten env payload st
      = curate format_dt shorten env payload message st).
Proof.
  intros Hguild Hemoji Hfetch Hself.
  split.
  - intros e Hadd Hperm Hfail. unfold on_star_add.
    rewrite Hguild, Hemoji, String.eqb_refl. cbn [negb].
    unfold bind at 1. rewrite Hfetch. cbn [await ret].
    rewrite Hself, Hadd, Z.eqb_refl. cbn [andb is_add].
    unfold reject_self_star, bind, await, raise.
    now rewrite Hperm, Hemoji, Hfail.
  - intros Hremove.
    apply on_star_add_curate; auto.
    rewrite Hremove. apply andb_false_r.
Qed.

(** X16.  The Starboard Info command has no side effect: whatever message it is
    asked about and however the renderer and the response end, the Mirror
    Store and the log of effects are as before; it responds with the embed
    the renderer returned. *)
Theorem starboard_info_has_no_side_effect env respond message st :
  snd (get_starboard_info format_dt shorten env respond message st) = st
  /\ fst (get_starboard_info format_dt shorten env respond message st)
     = match fst (generate_starboard_embed format_dt shorten env message st) with
       | inr embed => respond embed
       | inl e => inl e
       end.
Proof.
  unfold get_starboard_info, bind.
  rewrite generate_starboard_embed_pure. cbn [fst snd].
  destruct (fst _) as [ e | embed ]; cbn [fst snd]; [ now split | ].
  unfold await, ret, raise. destruct (respond embed) as [ e | [] ]; now split.
Qed.

End FrameTheorem.

(** ** The tally and the cap *)

(** X5.  The tally is the count of the first reaction that uses the star: it is
    0 when no reaction does, and the reactions with other emojis before it
    and every reaction after it do not matter. *)
Theorem star_tally_reads_the_first_star message :
  ((forall r, In r (msg_reactions message) -> r_emoji r <> star) ->
   star_tally message = 0)
  /\ (forall before r after,
         msg_reactions message = before ++ r :: after ->
         (forall r', In r' before -> r_emoji r' <> star) ->
         r_emoji r = star ->
         star_tally message = r_count r).
Proof.
  unfold star_tally. split.
  - intros Hnone.
    induction (msg_reactions message) as [ | r l IH ]; cbn [filter];
      [ reflexivity | ].
    destruct (r_emoji r =? star)%string eqn:E.
    + apply String.eqb_eq in E. exfalso. apply (Hnone r); [ now left | exact E ].
    + apply IH. intros r' Hin. apply Hnone. now right.
  - intros before r after -> Hbefore Hstar.
    induction before as [ | r' l IH ]; cbn [app filter].
    + rewrite Hstar, String.eqb_refl. reflexivity.
    + destruct (r_emoji r' =? star)%string eqn:E.
      * apply String.eqb_eq in E. exfalso.
        apply (Hbefore r'); [ now left | exact E ].
      * apply IH. intros r'' Hin. apply Hbefore. now right.
Qed.

(** X14.  Bots do not count towards the cap: with the members intent on, the
    cap of a message is the same whether or not bots are listed among the
    members of its channel. *)
Theorem bots_do_not_raise_the_cap env message members bots :
  intents_members env = true ->
  ch_members (msg_channel message) = Some members ->
  (forall u, In u bots -> u_bot u = true) ->
  threshold env (with_members message (members ++ bots))
  = threshold env message.
Proof.
  intros Hintents Hmembers Hbots.
  unfold threshold. cbn [with_members msg_channel ch_members].
  rewrite Hintents, Hmembers. do 3 f_equal.
  rewrite filter_app, length_app.
  assert (Hnil : filter (fun x => negb (u_bot x)) bots = []).
  { induction bots as [ | u l IH ]; cbn [filter]; [ reflexivity | ].
    rewrite (Hbots u) by now left. cbn [negb].
    apply IH. intros u' Hin. apply Hbots. now right. }
  rewrite Hnil. cbn [List.length]. lia.
Qed.

(** X15.  More stars and fewer members never disqualify: for populations below
    2 ^ 50, a tally that reaches the cap of a population also reaches, when
    it grows, the cap of every smaller population. *)
Theorem qualifying_is_monotone population population' tally tally' :
  0 <= population' <= population ->
  population < 2 ^ 50 ->
  tally <= tally' ->
  Float64.int_ge tally (times_tenth population) = true ->
  Float64.int_ge tally' (times_tenth population') = true.
Proof.
  intros Hpop Hbound Htally.
  rewrite !int_ge_times_tenth by lia.
  intros H. apply Z.leb_le in H. apply Z.leb_le. lia.
Qed.

(** ** A mirror over two events *)

Section TwoEvents.

Variable format_dt : Z -> string.
Variable shorten : string -> Z -> Exn + string.

(** X10.  Posted once, edited afterwards.  The first event on a message without
    a row posts the mirror as message [new_id]; a later event on the same
    message, with a tally that is not 0 and the mirror still in the
    starboard channel, edits that message and posts nothing: after the two
    events the store has the one row with [new_id], and the effects are one
    send, then one edit, each followed by the scheduling of the archiver. *)
Theorem posted_once_then_edited env env' payload message message' cap channel
        embed embed' new_id fetched st :
  truthy_id (p_guild_id payload) = true ->
  p_emoji payload = star ->
  ((u_id (msg_author message) =? p_user_id payload)
   && is_add (p_event_type payload)) = false ->
  ((u_id (msg_author message') =? p_user_id payload)
   && is_add (p_event_type payload)) = false ->
  Objects.matching (p_message_id payload) (table st) = [] ->
  (* the first event *)
  fetch_message env (p_channel_id payload) (p_message_id payload) = inr message ->
  star_tally message <> 0 ->
  threshold env message = inr cap ->
  Float64.int_ge (star_tally message) cap = true ->
  starboard_channel (guild env) = Some channel ->
  tc_can_send channel = true ->
  fst (generate_starboard_embed format_dt shorten env message initial_state)
  = inr embed ->
  send env (tc_id channel) (assemble_embeds embed message) = inr new_id ->
  new_id <> 0 ->
  (* the second event *)
  fetch_message env' (p_channel_id payload) (p_message_id payload)
  = inr message' ->
  star_tally message' <> 0 ->
  starboard_channel (guild env') = Some channel ->
  fst (generate_starboard_embed format_dt shorten env' message' initial_state)
  = inr embed' ->
  fetch_message env' (tc_id channel) new_id = inr fetched ->
  edit env' (tc_id channel) new_id (assemble_embeds embed' message') = inr tt ->
  run format_dt shorten [ (env, payload); (env', payload) ] st
  = {| table := table st ++ [ {| sb_id := p_message_id payload;
                                 sb_channel := p_channel_id payload;
                                 sb_starboard_message := Some new_id |} ];
       effects :=
         effects st
         ++ [ Send (tc_id channel) (assemble_embeds embed message) new_id;
              CreateTaskArchive new_id;
              Edit (tc_id channel) new_id (assemble_embeds embed' message');
              CreateTaskArchive new_id ] |}.
Proof.
  intros Hguild Hemoji Hnotself Hnotself' Hnone
         Hfetch Htally Hcap Hge Hchan Hsend Hembed Hnew Hnz
         Hfetch' Htally' Hchan' Hembed' Hthere Hedit.
  cbn [run fold_left]. unfold handle at 2. cbn [fst snd].
  (* the first event posts *)
  rewrite (on_star_add_synchronize format_dt shorten env payload message st)
    by assumption.
  rewrite synchronize_created by assumption.
  unfold bind at 1. rewrite Hcap. cbn [await ret]. rewrite Hge, Hchan, Hsend.
  unfold bind at 1. rewrite generate_starboard_embed_pure, Hembed.
  unfold post, bind, await, perform, Objects.update, ret. rewrite Hnew.
  cbn [table effects sb_id snd]. rewrite map_app. cbn [map sb_id sb_channel].
  rewrite Z.eqb_refl, (update_other_rows _ _ _ Hnone), <- app_assoc.
  cbn [app].
  (* the second event edits *)
  set (row := {| sb_id := p_message_id payload;
                 sb_channel := p_channel_id payload;
                 sb_starboard_message := Some new_id |}).
  set (st1 := {| table := table st ++ [row]; effects := _ |}).
  assert (Hrow : Objects.matching (p_message_id payload) (table st1) = [row]).
  { subst st1. cbn [table]. rewrite matching_app, Hnone.
    unfold Objects.matching. cbn [filter app]. subst row. cbn [sb_id].
    now rewrite Z.eqb_refl. }
  unfold handle. cbn [fst snd].
  rewrite (on_star_add_synchronize format_dt shorten env' payload message' st1)
    by assumption.
  rewrite (synchronize_existing format_dt shorten env' payload message' _ row
             new_id channel embed');
    [ | first [ assumption | reflexivity ] .. ].
  rewrite Hthere. unfold bind, await, perform, ret. rewrite Hedit.
  subst st1. cbn [snd table effects]. rewrite <- !app_assoc. reflexivity.
Qed.

End TwoEvents.

(** ** More on the image archiver *)

Section ArchiverBehaviour.

Variable http_get : string -> Exn + Response.
Variable url_filename : string -> string.

(** X17.  When the archiver attaches.  The first embed has an image with a URL,
    and a response of status 200 with a payload below the limit comes from
    that URL, or from the proxy URL after the request to the URL raised an
    [httpx.HTTPError].  The archiver then edits the message: the first
    embed points to the attachment, the other embeds are as they were, and
    the file carries the payload under the last path segment of the image
    URL, also when the payload came from the proxy. *)
Theorem archive_image_attaches m first rest image r :
  mm_embeds m = first :: rest ->
  e_image first = Some image ->
  PyStr.truthy (img_url image) = true ->
  status_code r = 200 ->
  Z.of_nat (List.length (content r)) < effective_limit (mm_filesize_limit m) ->
  (http_get (img_url image) = inr r
   \/ exists e proxy,
        http_get (img_url image) = inl e
        /\ is_HTTPError e = true
        /\ img_proxy_url image = Some proxy
        /\ PyStr.truthy proxy = true
        /\ http_get proxy = inr r) ->
  archive_image http_get url_filename m
  = inr (Some {| ae_embeds :=
                   set_image first
                     ("attachment://" +++ url_filename (img_url image))
                   :: rest;
                 ae_filename := url_filename (img_url image);
                 ae_file := content r |}).
Proof.
  intros Hembeds Himage Hurl Hstatus Hsize Hget.
  assert (Hattach : attach m first rest (url_filename (img_url image)) r
                    = Some {| ae_embeds :=
                                set_image first
                                  ("attachment://"
                                   +++ url_filename (img_url image))
                                :: rest;
                              ae_filename := url_filename (img_url image);
                              ae_file := content r |}).
  { unfold attach. rewrite Hstatus, Z.eqb_refl.
    apply Z.ltb_lt in Hsize. now rewrite Hsize. }
  unfold archive_image. rewrite Hembeds, Himage, Hurl.
  destruct Hget as [ -> | (e & proxy & -> & -> & -> & -> & ->) ];
    now rewrite Hattach.
Qed.

(** X18.  When the archiver leaves the message alone.  It issues no edit, and
    raises nothing, when the first embed has no image or an image without a
    URL, when the request raised an [httpx.HTTPError] and there is no proxy
    URL to fall back on, and when the response it got has another status
    than 200. *)
Theorem archive_image_skips m first rest :
  mm_embeds m = first :: rest ->
  (e_image first = None -> archive_image http_get url_filename m = inr None)
  /\ (forall image,
         e_image first = Some image ->
         (PyStr.truthy (img_url image) = false ->
          archive_image http_get url_filename m = inr None)
         /\ (forall e,
                PyStr.truthy (img_url image) = true ->
                http_get (img_url image) = inl e ->
                is_HTTPError e = true ->
                match img_proxy_url image with
                | Some proxy => PyStr.truthy proxy = false
                | None => True
                end ->
                archive_image http_get url_filename m = inr None)
         /\ (forall r,
                PyStr.truthy (img_url image) = true ->
                http_get (img_url image) = inr r ->
                status_code r <> 200 ->
                archive_image http_get url_filename m = inr None)).
Proof.
  intros Hembeds. unfold archive_image. rewrite Hembeds.
  split; [ now intros -> | ].
  intros image ->. split; [ now intros -> | ]. split.
  - intros e -> -> ->.
    destruct (img_proxy_url image) as [ proxy | ]; [ | reflexivity ].
    now intros ->.
  - intros r -> -> Hstatus. unfold attach.
    apply Z.eqb_neq in Hstatus. now rewrite Hstatus.
Qed.

(** X19.  When the archiver raises.  A message without embeds gives an
    [IndexError]; an exception of the request that is no [httpx.HTTPError]
    is passed on; and so is every exception of the request to the proxy
    URL, an [httpx.HTTPError] included. *)
Theorem archive_image_raises m :
  (mm_embeds m = [] -> archive_image http_get url_filename m = inl IndexError)
  /\ (forall first rest image e,
         mm_embeds m = first :: rest ->
         e_image first = Some image ->
         PyStr.truthy (img_url image) = true ->
         http_get (img_url image) = inl e ->
         (is_HTTPError e = false ->
          archive_image http_get url_filename m = inl e)
         /\ (forall proxy e',
                is_HTTPError e = true ->
                img_proxy_url image = Some proxy ->
                PyStr.truthy proxy = true ->
                http_get proxy = inl e' ->
                archive_image http_get url_filename m = inl e')).
Proof.
  unfold archive_image. split; [ now intros -> | ].
  intros first rest image e -> -> -> ->. split.
  - now intros ->.
  - intros proxy e' -> -> -> ->. reflexivity.
Qed.

End ArchiverBehaviour.

(** ** The further properties at work *)

Lemma rendered_fields_witness :
  match fst (generate_starboard_embed Demo.format_dt Demo.shorten
               (Demo.env (Demo.source (Demo.crowd 20) 3 []) (inr Demo.mirror)
                         (inr tt))
               (Demo.answer (Demo.crowd 20)) initial_state)
  with
  | inr embed =>
      exists info replies files,
        e_fields embed
        = {| f_name := "Info"; f_value := info; f_inline := false |}
          :: replies ++ files
        /\ map f_name replies = [ "In reply to" ]
        /\ map f_name files = [ "Attachment #0"; "Attachment #1" ]
  | inl _ => False
  end.
Proof.
  destruct (fst (generate_starboard_embed Demo.format_dt Demo.shorten
                   (Demo.env (Demo.source (Demo.crowd 20) 3 [])
                             (inr Demo.mirror) (inr tt))
                   (Demo.answer (Demo.crowd 20)) initial_state))
    as [ e | embed ] eqn:H.
  - vm_compute in H. discriminate H.
  - destruct (rendered_fields Demo.format_dt Demo.shorten _ _ _ _ H)
      as (_ & _ & _ & _ & _ & info & replies & files & Hf & Hr & Hn & _).
    exists info, replies, files. split; [ exact Hf | ]. split; [ exact Hr | exact Hn ].
Defined.

Lemma rendered_embed_has_no_image_witness :
  match fst (generate_starboard_embed Demo.format_dt Demo.shorten
               (Demo.env (Demo.source (Demo.crowd 20) 3 []) (inr Demo.mirror)
                         (inr tt))
               (Demo.answer (Demo.crowd 20)) initial_state)
  with
  | inr embed => e_image embed = None
  | inl _ => False
  end.
Proof.
  destruct (fst (generate_starboard_embed Demo.format_dt Demo.shorten
                   (Demo.env (Demo.source (Demo.crowd 20) 3 [])
                             (inr Demo.mirror) (inr tt))
                   (Demo.answer (Demo.crowd 20)) initial_state))
    as [ e | embed ] eqn:H.
  - vm_compute in H. discriminate H.
  - exact (rendered_embed_has_no_image Demo.format_dt Demo.shorten _ _ _ _ H).
Defined.

Lemma unfetchable_reference_is_omitted_witness :
  fst (generate_starboard_embed Demo.format_dt Demo.shorten
         (Demo.env (Demo.source (Demo.crowd 20) 3 []) (inr Demo.mirror) (inr tt))
         (Demo.orphan (Demo.crowd 20)) initial_state)
  = fst (generate_starboard_embed Demo.format_dt Demo.shorten
           (Demo.env (Demo.source (Demo.crowd 20) 3 []) (inr Demo.mirror)
                     (inr tt))
           (without_reference (Demo.orphan (Demo.crowd 20))) initial_state).
Proof.
  apply (unfetchable_reference_is_omitted Demo.format_dt Demo.shorten
           (Demo.env (Demo.source (Demo.crowd 20) 3 []) (inr Demo.mirror) (inr tt))
           (Demo.orphan (Demo.crowd 20))
           {| ref_channel_id := 5; ref_message_id := 7 |} NotFound
           initial_state);
    reflexivity.
Defined.

Lemma renderer_failures_witness :
  fst (generate_starboard_embed Demo.format_dt Demo.shorten
         (Demo.world Demo.uncounted_guild (Demo.source (Demo.crowd 20) 3 [])
                     (inr Demo.mirror) (inr 50) (inr tt))
         (Demo.source (Demo.crowd 20) 3 []) initial_state)
  = inl TypeError
  /\ fst (generate_starboard_embed Demo.format_dt Demo.shorten
            (Demo.env (Demo.source (Demo.crowd 20) 3 []) (inr Demo.mirror)
                      (inr tt))
            (Demo.untyped (Demo.crowd 20)) initial_state)
     = inl AttributeError.
Proof.
  split.
  - apply (proj1 (renderer_failures Demo.format_dt Demo.shorten
                    (Demo.world Demo.uncounted_guild
                                (Demo.source (Demo.crowd 20) 3 [])
                                (inr Demo.mirror) (inr 50) (inr tt))
                    (Demo.source (Demo.crowd 20) 3 []) initial_state));
      reflexivity.
  - apply (proj2 (proj2 (renderer_failures Demo.format_dt Demo.shorten
                           (Demo.env (Demo.source (Demo.crowd 20) 3 [])
                                     (inr Demo.mirror) (inr tt))
                           (Demo.untyped (Demo.crowd 20)) initial_state))
                 (times_tenth 100)
                 {| at_id := 61; at_filename := "blob";
                    at_url := "https://cdn.example/blob";
                    at_content_type := None; at_spoiler := false |});
      try reflexivity.
    left. reflexivity.
Defined.

Lemma qualifying_star_posts_witness :
  exists embeds,
    on_star_add Demo.format_dt Demo.shorten
      (Demo.env (Demo.source (Demo.crowd 20) 3 []) (inr Demo.mirror) (inr tt))
      (Demo.star_event REACTION_ADD Demo.bob)
      initial_state
    = (inr tt,
       {| table := [ {| sb_id := 1; sb_channel := 5;
                        sb_starboard_message := Some 50 |} ];
          effects := [Send 9 embeds 50; CreateTaskArchive 50] |}).
Proof.
  eexists.
  eapply (qualifying_star_posts Demo.format_dt Demo.shorten
            (Demo.env (Demo.source (Demo.crowd 20) 3 []) (inr Demo.mirror)
                      (inr tt))
            (Demo.star_event REACTION_ADD Demo.bob)
            (Demo.source (Demo.crowd 20) 3 [])
            (times_tenth 20)
            {| tc_id := 9; tc_name := "starboard"; tc_can_send := true |}
            _ 50 initial_state
            eq_refl eq_refl eq_refl eq_refl ltac:(discriminate)
            eq_refl eq_refl eq_refl eq_refl eq_refl
            ltac:(vm_compute; reflexivity) eq_refl).
Defined.

Lemma unposted_row_left_behind_witness :
  on_star_add Demo.format_dt Demo.shorten
    (Demo.world Demo.plain_guild (Demo.source (Demo.crowd 20) 3 [])
                (inr Demo.mirror) (inr 50) (inr tt))
    (Demo.star_event REACTION_ADD Demo.bob)
    initial_state
  = (inr tt, Demo.tracked)
  /\ on_star_add Demo.format_dt Demo.shorten
       (Demo.world Demo.the_guild (Demo.source (Demo.crowd 20) 3 [])
                   (inr Demo.mirror) (inl Forbidden) (inr tt))
       (Demo.star_event REACTION_ADD Demo.bob)
       initial_state
     = (inl Forbidden, Demo.tracked).
Proof.
  split.
  - exact (proj1 (unposted_row_left_behind Demo.format_dt Demo.shorten
                    (Demo.world Demo.plain_guild
                                (Demo.source (Demo.crowd 20) 3 [])
                                (inr Demo.mirror) (inr 50) (inr tt))
                    (Demo.star_event REACTION_ADD Demo.bob)
                    (Demo.source (Demo.crowd 20) 3 []) initial_state
                    eq_refl eq_refl eq_refl eq_refl ltac:(discriminate) eq_refl)
                 (times_tenth 20) eq_refl eq_refl Logic.I).
  - eapply (proj1 (proj2 (unposted_row_left_behind Demo.format_dt Demo.shorten
                            (Demo.world Demo.the_guild
                                        (Demo.source (Demo.crowd 20) 3 [])
                                        (inr Demo.mirror) (inl Forbidden)
                                        (inr tt))
                            (Demo.star_event REACTION_ADD Demo.bob)
                            (Demo.source (Demo.crowd 20) 3 []) initial_state
                            eq_refl eq_refl eq_refl eq_refl ltac:(discriminate)
                            eq_refl))
                  (times_tenth 20)
                  {| tc_id := 9; tc_name := "starboard"; tc_can_send := true |}
                  _ Forbidden eq_refl eq_refl eq_refl eq_refl
                  ltac:(vm_compute; reflexivity) eq_refl).
Defined.

Lemma starless_message_loses_its_row_witness :
  on_star_add Demo.format_dt Demo.shorten
    (Demo.env (Demo.source (Demo.crowd 20) 0 []) (inr Demo.mirror) (inr tt))
    (Demo.star_event REACTION_REMOVE Demo.bob)
    Demo.mirrored
  = (inr tt, {| table := []; effects := [] |}).
Proof.
  apply (proj1 (starless_message_loses_its_row Demo.format_dt Demo.shorten
                  (Demo.env (Demo.source (Demo.crowd 20) 0 [])
                            (inr Demo.mirror) (inr tt))
                  (Demo.star_event REACTION_REMOVE Demo.bob)
                  (Demo.source (Demo.crowd 20) 0 [])
                  {| sb_id := 1; sb_channel := 5;
                     sb_starboard_message := Some 2 |}
                  (times_tenth 20) Demo.mirrored
                  eq_refl eq_refl eq_refl eq_refl eq_refl eq_refl
                  (fun channel H =>
                     ex_intro _ NotFound
                       (conj
                          match H in (_ = c) return
                                match c with
                                | Some channel' =>
                                    fetch_message
                                      (Demo.env (Demo.source (Demo.crowd 20) 0 [])
                                                (inr Demo.mirror) (inr tt))
                                      (tc_id channel') 1
                                    = inl NotFound
                                | None => True
                                end
                          with eq_refl => eq_refl end
                          eq_refl))
                  eq_refl eq_refl)).
Defined.

Lemma existing_mirror_is_edited_witness :
  exists embeds,
    on_star_add Demo.format_dt Demo.shorten
      (Demo.env (Demo.source (Demo.crowd 20) 3 []) (inr Demo.mirror) (inr tt))
      (Demo.star_event REACTION_ADD Demo.bob)
      Demo.mirrored
    = (inr tt,
       {| table := table Demo.mirrored;
          effects := [Edit 9 2 embeds; CreateTaskArchive 2] |}).
Proof.
  eexists.
  eapply (proj1 (existing_mirror_is_edited Demo.format_dt Demo.shorten
                   (Demo.env (Demo.source (Demo.crowd 20) 3 [])
                             (inr Demo.mirror) (inr tt))
                   (Demo.star_event REACTION_ADD Demo.bob)
                   (Demo.source (Demo.crowd 20) 3 [])
                   {| sb_id := 1; sb_channel := 5;
                      sb_starboard_message := Some 2 |}
                   2
                   {| tc_id := 9; tc_name := "starboard"; tc_can_send := true |}
                   _ Demo.mirror Demo.mirrored
                   eq_refl eq_refl eq_refl eq_refl
                   ltac:(discriminate) eq_refl eq_refl ltac:(discriminate)
                   eq_refl eq_refl ltac:(vm_compute; reflexivity) eq_refl)
                eq_refl).
Defined.

Lemma ignored_events_witness :
  on_star_add Demo.format_dt Demo.shorten
    (Demo.env (Demo.source (Demo.crowd 20) 3 []) (inr Demo.mirror) (inr tt))
    Demo.direct_event Demo.mirrored
  = (inr tt, Demo.mirrored).
Proof.
  exact (proj1 (ignored_events Demo.format_dt Demo.shorten
                  (Demo.env (Demo.source (Demo.crowd 20) 3 [])
                            (inr Demo.mirror) (inr tt))
                  Demo.direct_event Demo.mirrored)
               (or_introl eq_refl)).
Defined.

Lemma self_star_removal_failure_witness :
  on_star_add Demo.format_dt Demo.shorten
    (Demo.world Demo.the_guild (Demo.source (Demo.crowd 20) 1 [])
                (inr Demo.mirror) (inr 50) (inl Forbidden))
    (Demo.star_event REACTION_ADD Demo.alice)
    Demo.mirrored
  = (inl Forbidden, Demo.mirrored).
Proof.
  exact (proj1 (self_star_removal_failure Demo.format_dt Demo.shorten
                  (Demo.world Demo.the_guild (Demo.source (Demo.crowd 20) 1 [])
                              (inr Demo.mirror) (inr 50) (inl Forbidden))
                  (Demo.star_event REACTION_ADD Demo.alice)
                  (Demo.source (Demo.crowd 20) 1 [])
                  Demo.mirrored eq_refl eq_refl eq_refl eq_refl)
               Forbidden eq_refl eq_refl eq_refl).
Defined.

Lemma star_tally_reads_the_first_star_witness :
  star_tally (Demo.source (Demo.crowd 20) 3 []) = 3.
Proof.
  apply (proj2 (star_tally_reads_the_first_star
                  (Demo.source (Demo.crowd 20) 3 []))
               [ {| r_emoji := "thumbs"; r_count := 4 |} ]
               {| r_emoji := star; r_count := 3 |}
               []).
  - reflexivity.
  - intros r' [ <- | [] ]. discriminate.
  - reflexivity.
Defined.

Lemma bots_do_not_raise_the_cap_witness :
  threshold
    (Demo.env (Demo.source (Demo.crowd 3) 1 []) (inr Demo.mirror) (inr tt))
    (with_members (Demo.source (Demo.crowd 3) 1 [])
                  (Demo.crowd 3 ++ [ Demo.robot 7; Demo.robot 8 ]))
  = threshold
      (Demo.env (Demo.source (Demo.crowd 3) 1 []) (inr Demo.mirror) (inr tt))
      (Demo.source (Demo.crowd 3) 1 []).
Proof.
  apply (bots_do_not_raise_the_cap
           (Demo.env (Demo.source (Demo.crowd 3) 1 []) (inr Demo.mirror) (inr tt))
           (Demo.source (Demo.crowd 3) 1 [])
           (Demo.crowd 3) [ Demo.robot 7; Demo.robot 8 ]).
  - reflexivity.
  - reflexivity.
  - intros u [ <- | [ <- | [] ] ]; reflexivity.
Defined.

Lemma qualifying_is_monotone_witness :
  Float64.int_ge 5 (times_tenth 20) = true.
Proof.
  apply (qualifying_is_monotone 30 20 3 5).
  - split; discriminate.
  - reflexivity.
  - discriminate.
  - reflexivity.
Defined.

Lemma posted_once_then_edited_witness :
  exists first_embeds second_embeds,
    run Demo.format_dt Demo.shorten
      [ (Demo.world Demo.the_guild (Demo.source (Demo.crowd 20) 3 [])
                    (inl NotFound) (inr 2) (inr tt),
         Demo.star_event REACTION_ADD Demo.bob);
        (Demo.env (Demo.source (Demo.crowd 20) 4 []) (inr Demo.mirror) (inr tt),
         Demo.star_event REACTION_ADD Demo.bob) ]
      initial_state
    = {| table := [ {| sb_id := 1; sb_channel := 5;
                       sb_starboard_message := Some 2 |} ];
         effects := [ Send 9 first_embeds 2; CreateTaskArchive 2;
                      Edit 9 2 second_embeds; CreateTaskArchive 2 ] |}.
Proof.
  do 2 eexists.
  eapply (posted_once_then_edited Demo.format_dt Demo.shorten
            (Demo.world Demo.the_guild (Demo.source (Demo.crowd 20) 3 [])
                        (inl NotFound) (inr 2) (inr tt))
            (Demo.env (Demo.source (Demo.crowd 20) 4 []) (inr Demo.mirror)
                      (inr tt))
            (Demo.star_event REACTION_ADD Demo.bob)
            (Demo.source (Demo.crowd 20) 3 [])
            (Demo.source (Demo.crowd 20) 4 [])
            (times_tenth 20)
            {| tc_id := 9; tc_name := "starboard"; tc_can_send := true |}
            _ _ 2 Demo.mirror initial_state
            eq_refl eq_refl eq_refl eq_refl eq_refl
            eq_refl ltac:(discriminate) eq_refl eq_refl eq_refl eq_refl
            ltac:(vm_compute; reflexivity) eq_refl ltac:(discriminate)
            eq_refl ltac:(discriminate) eq_refl
            ltac:(vm_compute; reflexivity) eq_refl eq_refl).
Defined.

Lemma archive_image_attaches_witness :
  archive_image Demo.proxy_only Demo.last_segment Demo.posted
  = inr (Some {| ae_embeds :=
                   [ set_image (hd (Demo.link_embed 0) (mm_embeds Demo.posted))
                               "attachment://cat.png";
                     Demo.link_embed 1 ];
                 ae_filename := "cat.png";
                 ae_file := [Byte.x89; Byte.x50; Byte.x4e] |}).
Proof.
  apply (archive_image_attaches Demo.proxy_only Demo.last_segment Demo.posted
           (hd (Demo.link_embed 0) (mm_embeds Demo.posted))
           [ Demo.link_embed 1 ]
           {| img_url := "https://host.example/a/cat.png";
              img_proxy_url := Some "https://proxy.example/cat.png" |}
           {| status_code := 200; content := [Byte.x89; Byte.x50; Byte.x4e] |});
    try reflexivity.
  right. exists HTTPError, "https://proxy.example/cat.png".
  repeat split.
Defined.

Lemma archive_image_skips_witness :
  archive_image Demo.proxy_only Demo.last_segment
    {| mm_embeds := [ Demo.link_embed 1 ]; mm_filesize_limit := 8 * 1024 * 1024 |}
  = inr None.
Proof.
  apply (proj1 (archive_image_skips Demo.proxy_only Demo.last_segment
                  {| mm_embeds := [ Demo.link_embed 1 ];
                     mm_filesize_limit := 8 * 1024 * 1024 |}
                  (Demo.link_embed 1) [] eq_refl)).
  reflexivity.
Defined.

Lemma archive_image_raises_witness :
  archive_image (fun _ => inl HTTPError) Demo.last_segment Demo.posted
  = inl HTTPError.
Proof.
  apply (proj2 (proj2 (archive_image_raises (fun _ => inl HTTPError)
                         Demo.last_segment Demo.posted)
                      (hd (Demo.link_embed 0) (mm_embeds Demo.posted))
                      [ Demo.link_embed 1 ]
                      {| img_url := "https://host.example/a/cat.png";
                         img_proxy_url := Some "https://proxy.example/cat.png" |}
                      HTTPError eq_refl eq_refl eq_refl eq_refl)
               "https://proxy.example/cat.png" HTTPError);
    reflexivity.
Defined.

Lemma archive_image_keeps_embeds_witness :
  match archive_image Demo.proxy_only Demo.last_segment Demo.posted with
  | inr (Some edit) =>
      List.length (ae_embeds edit) = 2%nat
      /\ tl (ae_embeds edit) = [ Demo.link_embed 1 ]
  | _ => False
  end.
Proof.
  destruct (archive_image Demo.proxy_only Demo.last_segment Demo.posted)
    as [ e | [ edit | ] ] eqn:H.
  - vm_compute in H. discriminate H.
  - exact (archive_image_keeps_embeds Demo.proxy_only Demo.last_segment
             Demo.posted edit H).
  - vm_compute in H. discriminate H.
Defined.

(** A store with the rows of three messages: an event on message 1 that
    deletes its row leaves the rows of messages 8 and 3 in place. *)
Example other_rows_stay :
  table
    (handle Demo.format_dt Demo.shorten
       {| table := [ {| sb_id := 8; sb_channel := 5;
                        sb_starboard_message := Some 80 |};
                     {| sb_id := 1; sb_channel := 5;
                        sb_starboard_message := Some 2 |};
                     {| sb_id := 3; sb_channel := 5;
                        sb_starboard_message := None |} ];
          effects := [] |}
       (Demo.env (Demo.source (Demo.crowd 20) 0 []) (inr Demo.mirror) (inr tt),
        Demo.star_event REACTION_REMOVE Demo.bob))
  = [ {| sb_id := 8; sb_channel := 5; sb_starboard_message := Some 80 |};
      {| sb_id := 3; sb_channel := 5; sb_starboard_message := None |} ].
Proof. vm_compute. reflexivity. Qed.
